(** * Voice-driven vehicle search of the admin dashboard

    A shallow embedding of the [Dashboard] component
    (AdminDashboard: [handleSearch], [handleVoiceSearch] and the four
    recognition callbacks, [speakResult]) together with the facts the
    specification states about it.

    The component is a React function component: every render runs the
    function body again, and the callbacks created by one render see the
    state values of that render.  The embedding keeps this explicit: a
    [Render] is the snapshot a callback closes over, while setters act on
    the live [Store].

    Browser behaviour the component relies on is part of the event loop:
    timers queued by [setTimeout], requests suspended at [await], the
    callbacks installed on a recognition object, and the [required]
    attribute of the search input.  Loading the vehicle list on mount
    touches none of the state studied here and is left out.

    The other components follow, each in a module of its own: the
    add-vehicle form ([AddVehicle]), the vehicle page ([Details]), and the
    application shell with the login page and the logout of the dashboard
    ([Site]). *)

From Stdlib Require Import String Ascii List Bool Arith NArith Lia.
Import ListNotations.
Open Scope string_scope.
Open Scope nat_scope.
Open Scope list_scope.

(** ** Strings

    In the event loop transcripts and keys are strings of 8-bit characters,
    and the functions of this module are JavaScript's restricted to ASCII,
    the alphabet of registration numbers: on a string of characters below
    128 they give what the functions on all strings (module [Js16] below)
    give, and only there do they stand for them. *)

Module Js.

(** The ASCII members of the class [\s], which are also the ASCII
    characters [trim] removes: TAB, LF, VT, FF, CR and SPACE. *)
Definition is_space (c : ascii) : bool :=
  let n := nat_of_ascii c in
  ((9 <=? n) && (n <=? 13)) || (n =? 32).

(** [toUpperCase] on one character: [a]..[z] go to [A]..[Z]. *)
Definition upper_char (c : ascii) : ascii :=
  let n := nat_of_ascii c in
  if (97 <=? n) && (n <=? 122) then ascii_of_nat (n - 32) else c.

(** [s.toUpperCase()] *)
Fixpoint toUpperCase (s : string) : string :=
  match s with
  | EmptyString => EmptyString
  | String c r => String (upper_char c) (toUpperCase r)
  end.

(** [s.trimStart()] *)
Fixpoint trimStart (s : string) : string :=
  match s with
  | EmptyString => EmptyString
  | String c r => if is_space c then trimStart r else s
  end.

(** [s.trimEnd()]: a white-space character goes when nothing but white
    space follows it. *)
Fixpoint trimEnd (s : string) : string :=
  match s with
  | EmptyString => EmptyString
  | String c r =>
      match trimEnd r with
      | EmptyString => if is_space c then EmptyString else String c EmptyString
      | r' => String c r'
      end
  end.

(** [s.trim()] *)
Definition trim (s : string) : string := trimEnd (trimStart s).

(** [s.replace(/\s+/g, "")]: every maximal run of white space is replaced by
    the empty string, so each white-space character disappears. *)
Fixpoint replace_spaces (s : string) : string :=
  match s with
  | EmptyString => EmptyString
  | String c r => if is_space c then replace_spaces r else String c (replace_spaces r)
  end.

(** The falsy test of [a || b] on strings: the empty string is falsy. *)
Definition truthy (s : string) : bool :=
  match s with EmptyString => false | _ => true end.

(** No white space anywhere in [s]. *)
Fixpoint spaceless (s : string) : bool :=
  match s with
  | EmptyString => true
  | String c r => negb (is_space c) && spaceless r
  end.

End Js.

(** ** JavaScript strings in full

    A JavaScript string is a sequence of UTF-16 code units.  [trim] and the
    class [\s] work on code units; [toUpperCase] reads the string as code
    points, pairing a high surrogate with the low surrogate that follows it,
    maps every code point through the upper-case mapping of Unicode and
    writes the result back as code units.  This module has the three
    functions on all strings; the module [Js] above is their restriction to
    ASCII (lemma [AsciiFacts.ascii_normalize_agrees]). *)

Module Js16.
Local Open Scope N_scope.

(** The upper-case mapping of Unicode 14.0.0, simple mappings and the
    unconditional special ones: one entry per code point that changes, with
    the code points it becomes. *)
Definition upperTable : list (N * list N) :=
  [(97, [65]); (98, [66]); (99, [67]); (100, [68]); (101, [69]); (102, [70]);
   (103, [71]); (104, [72]); (105, [73]); (106, [74]); (107, [75]);
   (108, [76]); (109, [77]); (110, [78]); (111, [79]); (112, [80]);
   (113, [81]); (114, [82]); (115, [83]); (116, [84]); (117, [85]);
   (118, [86]); (119, [87]); (120, [88]); (121, [89]); (122, [90]);
   (181, [924]); (223, [83; 83]); (224, [192]); (225, [193]); (226, [194]);
   (227, [195]); (228, [196]); (229, [197]); (230, [198]); (231, [199]);
   (232, [200]); (233, [201]); (234, [202]); (235, [203]); (236, [204]);
   (237, [205]); (238, [206]); (239, [207]); (240, [208]); (241, [209]);
   (242, [210]); (243, [211]); (244, [212]); (245, [213]); (246, [214]);
   (248, [216]); (249, [217]); (250, [218]); (251, [219]); (252, [220]);
   (253, [221]); (254, [222]); (255, [376]); (257, [256]); (259, [258]);
   (261, [260]); (263, [262]); (265, [264]); (267, [266]); (269, [268]);
   (271, [270]); (273, [272]); (275, [274]); (277, [276]); (279, [278]);
   (281, [280]); (283, [282]); (285, [284]); (287, [286]); (289, [288]);
   (291, [290]); (293, [292]); (295, [294]); (297, [296]); (299, [298]);
   (301, [300]); (303, [302]); (305, [73]); (307, [306]); (309, [308]);
   (311, [310]); (314, [313]); (316, [315]); (318, [317]); (320, [319]);
   (322, [321]); (324, [323]); (326, [325]); (328, [327]); (329, [700; 78]);
   (331, [330]); (333, [332]); (335, [334]); (337, [336]); (339, [338]);
   (341, [340]); (343, [342]); (345, [344]); (347, [346]); (349, [348]);
   (351, [350]); (353, [352]); (355, [354]); (357, [356]); (359, [358]);
   (361, [360]); (363, [362]); (365, [364]); (367, [366]); (369, [368]);
   (371, [370]); (373, [372]); (375, [374]); (378, [377]); (380, [379]);
   (382, [381]); (383, [83]); (384, [579]); (387, [386]); (389, [388]);
   (392, [391]); (396, [395]); (402, [401]); (405, [502]); (409, [408]);
   (410, [573]); (414, [544]); (417, [416]); (419, [418]); (421, [420]);
   (424, [423]); (429, [428]); (432, [431]); (436, [435]); (438, [437]);
   (441, [440]); (445, [444]); (447, [503]); (453, [452]); (454, [452]);
   (456, [455]); (457, [455]); (459, [458]); (460, [458]); (462, [461]);
   (464, [463]); (466, [465]); (468, [467]); (470, [469]); (472, [471]);
   (474, [473]); (476, [475]); (477, [398]); (479, [478]); (481, [480]);
   (483, [482]); (485, [484]); (487, [486]); (489, [488]); (491, [490]);
   (493, [492]); (495, [494]); (496, [74; 780]); (498, [497]); (499, [497]);
   (501, [500]); (505, [504]); (507, [506]); (509, [508]); (511, [510]);
   (513, [512]); (515, [514]); (517, [516]); (519, [518]); (521, [520]);
   (523, [522]); (525, [524]); (527, [526]); (529, [528]); (531, [530]);
   (533, [532]); (535, [534]); (537, [536]); (539, [538]); (541, [540]);
   (543, [542]); (547, [546]); (549, [548]); (551, [550]); (553, [552]);
   (555, [554]); (557, [556]); (559, [558]); (561, [560]); (563, [562]);
   (572, [571]); (575, [11390]); (576, [11391]); (578, [577]); (583, [582]);
   (585, [584]); (587, [586]); (589, [588]); (591, [590]); (592, [11375]);
   (593, [11373]); (594, [11376]); (595, [385]); (596, [390]); (598, [393]);
   (599, [394]); (601, [399]); (603, [400]); (604, [42923]); (608, [403]);
   (609, [42924]); (611, [404]); (613, [42893]); (614, [42922]);
   (616, [407]); (617, [406]); (618, [42926]); (619, [11362]);
   (620, [42925]); (623, [412]); (625, [11374]); (626, [413]); (629, [415]);
   (637, [11364]); (640, [422]); (642, [42949]); (643, [425]);
   (647, [42929]); (648, [430]); (649, [580]); (650, [433]); (651, [434]);
   (652, [581]); (658, [439]); (669, [42930]); (670, [42928]); (837, [921]);
   (881, [880]); (883, [882]); (887, [886]); (891, [1021]); (892, [1022]);
   (893, [1023]); (912, [921; 776; 769]); (940, [902]); (941, [904]);
   (942, [905]); (943, [906]); (944, [933; 776; 769]); (945, [913]);
   (946, [914]); (947, [915]); (948, [916]); (949, [917]); (950, [918]);
   (951, [919]); (952, [920]); (953, [921]); (954, [922]); (955, [923]);
   (956, [924]); (957, [925]); (958, [926]); (959, [927]); (960, [928]);
   (961, [929]); (962, [931]); (963, [931]); (964, [932]); (965, [933]);
   (966, [934]); (967, [935]); (968, [936]); (969, [937]); (970, [938]);
   (971, [939]); (972, [908]); (973, [910]); (974, [911]); (976, [914]);
   (977, [920]); (981, [934]); (982, [928]); (983, [975]); (985, [984]);
   (987, [986]); (989, [988]); (991, [990]); (993, [992]); (995, [994]);
   (997, [996]); (999, [998]); (1001, [1000]); (1003, [1002]);
   (1005, [1004]); (1007, [1006]); (1008, [922]); (1009, [929]);
   (1010, [1017]); (1011, [895]); (1013, [917]); (1016, [1015]);
   (1019, [1018]); (1072, [1040]); (1073, [1041]); (1074, [1042]);
   (1075, [1043]); (1076, [1044]); (1077, [1045]); (1078, [1046]);
   (1079, [1047]); (1080, [1048]); (1081, [1049]); (1082, [1050]);
   (1083, [1051]); (1084, [1052]); (1085, [1053]); (1086, [1054]);
   (1087, [1055]); (1088, [1056]); (1089, [1057]); (1090, [1058]);
   (1091, [1059]); (1092, [1060]); (1093, [1061]); (1094, [1062]);
   (1095, [1063]); (1096, [1064]); (1097, [1065]); (1098, [1066]);
   (1099, [1067]); (1100, [1068]); (1101, [1069]); (1102, [1070]);
   (1103, [1071]); (1104, [1024]); (1105, [1025]); (1106, [1026]);
   (1107, [1027]); (1108, [1028]); (1109, [1029]); (1110, [1030]);
   (1111, [1031]); (1112, [1032]); (1113, [1033]); (1114, [1034]);
   (1115, [1035]); (1116, [1036]); (1117, [1037]); (1118, [1038]);
   (1119, [1039]); (1121, [1120]); (1123, [1122]); (1125, [1124]);
   (1127, [1126]); (1129, [1128]); (1131, [1130]); (1133, [1132]);
   (1135, [1134]); (1137, [1136]); (1139, [1138]); (1141, [1140]);
   (1143, [1142]); (1145, [1144]); (1147, [1146]); (1149, [1148]);
   (1151, [1150]); (1153, [1152]); (1163, [1162]); (1165, [1164]);
   (1167, [1166]); (1169, [1168]); (1171, [1170]); (1173, [1172]);
   (1175, [1174]); (1177, [1176]); (1179, [1178]); (1181, [1180]);
   (1183, [1182]); (1185, [1184]); (1187, [1186]); (1189, [1188]);
   (1191, [1190]); (1193, [1192]); (1195, [1194]); (1197, [1196]);
   (1199, [1198]); (1201, [1200]); (1203, [1202]); (1205, [1204]);
   (1207, [1206]); (1209, [1208]); (1211, [1210]); (1213, [1212]);
   (1215, [1214]); (1218, [1217]); (1220, [1219]); (1222, [1221]);
   (1224, [1223]); (1226, [1225]); (1228, [1227]); (1230, [1229]);
   (1231, [1216]); (1233, [1232]); (1235, [1234]); (1237, [1236]);
   (1239, [1238]); (1241, [1240]); (1243, [1242]); (1245, [1244]);
   (1247, [1246]); (1249, [1248]); (1251, [1250]); (1253, [1252]);
   (1255, [1254]); (1257, [1256]); (1259, [1258]); (1261, [1260]);
   (1263, [1262]); (1265, [1264]); (1267, [1266]); (1269, [1268]);
   (1271, [1270]); (1273, [1272]); (1275, [1274]); (1277, [1276]);
   (1279, [1278]); (1281, [1280]); (1283, [1282]); (1285, [1284]);
   (1287, [1286]); (1289, [1288]); (1291, [1290]); (1293, [1292]);
   (1295, [1294]); (1297, [1296]); (1299, [1298]); (1301, [1300]);
   (1303, [1302]); (1305, [1304]); (1307, [1306]); (1309, [1308]);
   (1311, [1310]); (1313, [1312]); (1315, [1314]); (1317, [1316]);
   (1319, [1318]); (1321, [1320]); (1323, [1322]); (1325, [1324]);
   (1327, [1326]); (1377, [1329]); (1378, [1330]); (1379, [1331]);
   (1380, [1332]); (1381, [1333]); (1382, [1334]); (1383, [1335]);
   (1384, [1336]); (1385, [1337]); (1386, [1338]); (1387, [1339]);
   (1388, [1340]); (1389, [1341]); (1390, [1342]); (1391, [1343]);
   (1392, [1344]); (1393, [1345]); (1394, [1346]); (1395, [1347]);
   (1396, [1348]); (1397, [1349]); (1398, [1350]); (1399, [1351]);
   (1400, [1352]); (1401, [1353]); (1402, [1354]); (1403, [1355]);
   (1404, [1356]); (1405, [1357]); (1406, [1358]); (1407, [1359]);
   (1408, [1360]); (1409, [1361]); (1410, [1362]); (1411, [1363]);
   (1412, [1364]); (1413, [1365]); (1414, [1366]); (1415, [1333; 1362]);
   (4304, [7312]); (4305, [7313]); (4306, [7314]); (4307, [7315]);
   (4308, [7316]); (4309, [7317]); (4310, [7318]); (4311, [7319]);
   (4312, [7320]); (4313, [7321]); (4314, [7322]); (4315, [7323]);
   (4316, [7324]); (4317, [7325]); (4318, [7326]); (4319, [7327]);
   (4320, [7328]); (4321, [7329]); (4322, [7330]); (4323, [7331]);
   (4324, [7332]); (4325, [7333]); (4326, [7334]); (4327, [7335]);
   (4328, [7336]); (4329, [7337]); (4330, [7338]); (4331, [7339]);
   (4332, [7340]); (4333, [7341]); (4334, [7342]); (4335, [7343]);
   (4336, [7344]); (4337, [7345]); (4338, [7346]); (4339, [7347]);
   (4340, [7348]); (4341, [7349]); (4342, [7350]); (4343, [7351]);
   (4344, [7352]); (4345, [7353]); (4346, [7354]); (4349, [7357]);
   (4350, [7358]); (4351, [7359]); (5112, [5104]); (5113, [5105]);
   (5114, [5106]); (5115, [5107]); (5116, [5108]); (5117, [5109]);
   (7296, [1042]); (7297, [1044]); (7298, [1054]); (7299, [1057]);
   (7300, [1058]); (7301, [1058]); (7302, [1066]); (7303, [1122]);
   (7304, [42570]); (7545, [42877]); (7549, [11363]); (7566, [42950]);
   (7681, [7680]); (7683, [7682]); (7685, [7684]); (7687, [7686]);
   (7689, [7688]); (7691, [7690]); (7693, [7692]); (7695, [7694]);
   (7697, [7696]); (7699, [7698]); (7701, [7700]); (7703, [7702]);
   (7705, [7704]); (7707, [7706]); (7709, [7708]); (7711, [7710]);
   (7713, [7712]); (7715, [7714]); (7717, [7716]); (7719, [7718]);
   (7721, [7720]); (7723, [7722]); (7725, [7724]); (7727, [7726]);
   (7729, [7728]); (7731, [7730]); (7733, [7732]); (7735, [7734]);
   (7737, [7736]); (7739, [7738]); (7741, [7740]); (7743, [7742]);
   (7745, [7744]); (7747, [7746]); (7749, [7748]); (7751, [7750]);
   (7753, [7752]); (7755, [7754]); (7757, [7756]); (7759, [7758]);
   (7761, [7760]); (7763, [7762]); (7765, [7764]); (7767, [7766]);
   (7769, [7768]); (7771, [7770]); (7773, [7772]); (7775, [7774]);
   (7777, [7776]); (7779, [7778]); (7781, [7780]); (7783, [7782]);
   (7785, [7784]); (7787, [7786]); (7789, [7788]); (7791, [7790]);
   (7793, [7792]); (7795, [7794]); (7797, [7796]); (7799, [7798]);
   (7801, [7800]); (7803, [7802]); (7805, [7804]); (7807, [7806]);
   (7809, [7808]); (7811, [7810]); (7813, [7812]); (7815, [7814]);
   (7817, [7816]); (7819, [7818]); (7821, [7820]); (7823, [7822]);
   (7825, [7824]); (7827, [7826]); (7829, [7828]); (7830, [72; 817]);
   (7831, [84; 776]); (7832, [87; 778]); (7833, [89; 778]);
   (7834, [65; 702]); (7835, [7776]); (7841, [7840]); (7843, [7842]);
   (7845, [7844]); (7847, [7846]); (7849, [7848]); (7851, [7850]);
   (7853, [7852]); (7855, [7854]); (7857, [7856]); (7859, [7858]);
   (7861, [7860]); (7863, [7862]); (7865, [7864]); (7867, [7866]);
   (7869, [7868]); (7871, [7870]); (7873, [7872]); (7875, [7874]);
   (7877, [7876]); (7879, [7878]); (7881, [7880]); (7883, [7882]);
   (7885, [7884]); (7887, [7886]); (7889, [7888]); (7891, [7890]);
   (7893, [7892]); (7895, [7894]); (7897, [7896]); (7899, [7898]);
   (7901, [7900]); (7903, [7902]); (7905, [7904]); (7907, [7906]);
   (7909, [7908]); (7911, [7910]); (7913, [7912]); (7915, [7914]);
   (7917, [7916]); (7919, [7918]); (7921, [7920]); (7923, [7922]);
   (7925, [7924]); (7927, [7926]); (7929, [7928]); (7931, [7930]);
   (7933, [7932]); (7935, [7934]); (7936, [7944]); (7937, [7945]);
   (7938, [7946]); (7939, [7947]); (7940, [7948]); (7941, [7949]);
   (7942, [7950]); (7943, [7951]); (7952, [7960]); (7953, [7961]);
   (7954, [7962]); (7955, [7963]); (7956, [7964]); (7957, [7965]);
   (7968, [7976]); (7969, [7977]); (7970, [7978]); (7971, [7979]);
   (7972, [7980]); (7973, [7981]); (7974, [7982]); (7975, [7983]);
   (7984, [7992]); (7985, [7993]); (7986, [7994]); (7987, [7995]);
   (7988, [7996]); (7989, [7997]); (7990, [7998]); (7991, [7999]);
   (8000, [8008]); (8001, [8009]); (8002, [8010]); (8003, [8011]);
   (8004, [8012]); (8005, [8013]); (8016, [933; 787]); (8017, [8025]);
   (8018, [933; 787; 768]); (8019, [8027]); (8020, [933; 787; 769]);
   (8021, [8029]); (8022, [933; 787; 834]); (8023, [8031]); (8032, [8040]);
   (8033, [8041]); (8034, [8042]); (8035, [8043]); (8036, [8044]);
   (8037, [8045]); (8038, [8046]); (8039, [8047]); (8048, [8122]);
   (8049, [8123]); (8050, [8136]); (8051, [8137]); (8052, [8138]);
   (8053, [8139]); (8054, [8154]); (8055, [8155]); (8056, [8184]);
   (8057, [8185]); (8058, [8170]); (8059, [8171]); (8060, [8186]);
   (8061, [8187]); (8064, [7944; 921]); (8065, [7945; 921]);
   (8066, [7946; 921]); (8067, [7947; 921]); (8068, [7948; 921]);
   (8069, [7949; 921]); (8070, [7950; 921]); (8071, [7951; 921]);
   (8072, [7944; 921]); (8073, [7945; 921]); (8074, [7946; 921]);
   (8075, [7947; 921]); (8076, [7948; 921]); (8077, [7949; 921]);
   (8078, [7950; 921]); (8079, [7951; 921]); (8080, [7976; 921]);
   (8081, [7977; 921]); (8082, [7978; 921]); (8083, [7979; 921]);
   (8084, [7980; 921]); (8085, [7981; 921]); (8086, [7982; 921]);
   (8087, [7983; 921]); (8088, [7976; 921]); (8089, [7977; 921]);
   (8090, [7978; 921]); (8091, [7979; 921]); (8092, [7980; 921]);
   (8093, [7981; 921]); (8094, [7982; 921]); (8095, [7983; 921]);
   (8096, [8040; 921]); (8097, [8041; 921]); (8098, [8042; 921]);
   (8099, [8043; 921]); (8100, [8044; 921]); (8101, [8045; 921]);
   (8102, [8046; 921]); (8103, [8047; 921]); (8104, [8040; 921]);
   (8105, [8041; 921]); (8106, [8042; 921]); (8107, [8043; 921]);
   (8108, [8044; 921]); (8109, [8045; 921]); (8110, [8046; 921]);
   (8111, [8047; 921]); (8112, [8120]); (8113, [8121]); (8114, [8122; 921]);
   (8115, [913; 921]); (8116, [902; 921]); (8118, [913; 834]);
   (8119, [913; 834; 921]); (8124, [913; 921]); (8126, [921]);
   (8130, [8138; 921]); (8131, [919; 921]); (8132, [905; 921]);
   (8134, [919; 834]); (8135, [919; 834; 921]); (8140, [919; 921]);
   (8144, [8152]); (8145, [8153]); (8146, [921; 776; 768]);
   (8147, [921; 776; 769]); (8150, [921; 834]); (8151, [921; 776; 834]);
   (8160, [8168]); (8161, [8169]); (8162, [933; 776; 768]);
   (8163, [933; 776; 769]); (8164, [929; 787]); (8165, [8172]);
   (8166, [933; 834]); (8167, [933; 776; 834]); (8178, [8186; 921]);
   (8179, [937; 921]); (8180, [911; 921]); (8182, [937; 834]);
   (8183, [937; 834; 921]); (8188, [937; 921]); (8526, [8498]);
   (8560, [8544]); (8561, [8545]); (8562, [8546]); (8563, [8547]);
   (8564, [8548]); (8565, [8549]); (8566, [8550]); (8567, [8551]);
   (8568, [8552]); (8569, [8553]); (8570, [8554]); (8571, [8555]);
   (8572, [8556]); (8573, [8557]); (8574, [8558]); (8575, [8559]);
   (8580, [8579]); (9424, [9398]); (9425, [9399]); (9426, [9400]);
   (9427, [9401]); (9428, [9402]); (9429, [9403]); (9430, [9404]);
   (9431, [9405]); (9432, [9406]); (9433, [9407]); (9434, [9408]);
   (9435, [9409]); (9436, [9410]); (9437, [9411]); (9438, [9412]);
   (9439, [9413]); (9440, [9414]); (9441, [9415]); (9442, [9416]);
   (9443, [9417]); (9444, [9418]); (9445, [9419]); (9446, [9420]);
   (9447, [9421]); (9448, [9422]); (9449, [9423]); (11312, [11264]);
   (11313, [11265]); (11314, [11266]); (11315, [11267]); (11316, [11268]);
   (11317, [11269]); (11318, [11270]); (11319, [11271]); (11320, [11272]);
   (11321, [11273]); (11322, [11274]); (11323, [11275]); (11324, [11276]);
   (11325, [11277]); (11326, [11278]); (11327, [11279]); (11328, [11280]);
   (11329, [11281]); (11330, [11282]); (11331, [11283]); (11332, [11284]);
   (11333, [11285]); (11334, [11286]); (11335, [11287]); (11336, [11288]);
   (11337, [11289]); (11338, [11290]); (11339, [11291]); (11340, [11292]);
   (11341, [11293]); (11342, [11294]); (11343, [11295]); (11344, [11296]);
   (11345, [11297]); (11346, [11298]); (11347, [11299]); (11348, [11300]);
   (11349, [11301]); (11350, [11302]); (11351, [11303]); (11352, [11304]);
   (11353, [11305]); (11354, [11306]); (11355, [11307]); (11356, [11308]);
   (11357, [11309]); (11358, [11310]); (11359, [11311]); (11361, [11360]);
   (11365, [570]); (11366, [574]); (11368, [11367]); (11370, [11369]);
   (11372, [11371]); (11379, [11378]); (11382, [11381]); (11393, [11392]);
   (11395, [11394]); (11397, [11396]); (11399, [11398]); (11401, [11400]);
   (11403, [11402]); (11405, [11404]); (11407, [11406]); (11409, [11408]);
   (11411, [11410]); (11413, [11412]); (11415, [11414]); (11417, [11416]);
   (11419, [11418]); (11421, [11420]); (11423, [11422]); (11425, [11424]);
   (11427, [11426]); (11429, [11428]); (11431, [11430]); (11433, [11432]);
   (11435, [11434]); (11437, [11436]); (11439, [11438]); (11441, [11440]);
   (11443, [11442]); (11445, [11444]); (11447, [11446]); (11449, [11448]);
   (11451, [11450]); (11453, [11452]); (11455, [11454]); (11457, [11456]);
   (11459, [11458]); (11461, [11460]); (11463, [11462]); (11465, [11464]);
   (11467, [11466]); (11469, [11468]); (11471, [11470]); (11473, [11472]);
   (11475, [11474]); (11477, [11476]); (11479, [11478]); (11481, [11480]);
   (11483, [11482]); (11485, [11484]); (11487, [11486]); (11489, [11488]);
   (11491, [11490]); (11500, [11499]); (11502, [11501]); (11507, [11506]);
   (11520, [4256]); (11521, [4257]); (11522, [4258]); (11523, [4259]);
   (11524, [4260]); (11525, [4261]); (11526, [4262]); (11527, [4263]);
   (11528, [4264]); (11529, [4265]); (11530, [4266]); (11531, [4267]);
   (11532, [4268]); (11533, [4269]); (11534, [4270]); (11535, [4271]);
   (11536, [4272]); (11537, [4273]); (11538, [4274]); (11539, [4275]);
   (11540, [4276]); (11541, [4277]); (11542, [4278]); (11543, [4279]);
   (11544, [4280]); (11545, [4281]); (11546, [4282]); (11547, [4283]);
   (11548, [4284]); (11549, [4285]); (11550, [4286]); (11551, [4287]);
   (11552, [4288]); (11553, [4289]); (11554, [4290]); (11555, [4291]);
   (11556, [4292]); (11557, [4293]); (11559, [4295]); (11565, [4301]);
   (42561, [42560]); (42563, [42562]); (42565, [42564]); (42567, [42566]);
   (42569, [42568]); (42571, [42570]); (42573, [42572]); (42575, [42574]);
   (42577, [42576]); (42579, [42578]); (42581, [42580]); (42583, [42582]);
   (42585, [42584]); (42587, [42586]); (42589, [42588]); (42591, [42590]);
   (42593, [42592]); (42595, [42594]); (42597, [42596]); (42599, [42598]);
   (42601, [42600]); (42603, [42602]); (42605, [42604]); (42625, [42624]);
   (42627, [42626]); (42629, [42628]); (42631, [42630]); (42633, [42632]);
   (42635, [42634]); (42637, [42636]); (42639, [42638]); (42641, [42640]);
   (42643, [42642]); (42645, [42644]); (42647, [42646]); (42649, [42648]);
   (42651, [42650]); (42787, [42786]); (42789, [42788]); (42791, [42790]);
   (42793, [42792]); (42795, [42794]); (42797, [42796]); (42799, [42798]);
   (42803, [42802]); (42805, [42804]); (42807, [42806]); (42809, [42808]);
   (42811, [42810]); (42813, [42812]); (42815, [42814]); (42817, [42816]);
   (42819, [42818]); (42821, [42820]); (42823, [42822]); (42825, [42824]);
   (42827, [42826]); (42829, [42828]); (42831, [42830]); (42833, [42832]);
   (42835, [42834]); (42837, [42836]); (42839, [42838]); (42841, [42840]);
   (42843, [42842]); (42845, [42844]); (42847, [42846]); (42849, [42848]);
   (42851, [42850]); (42853, [42852]); (42855, [42854]); (42857, [42856]);
   (42859, [42858]); (42861, [42860]); (42863, [42862]); (42874, [42873]);
   (42876, [42875]); (42879, [42878]); (42881, [42880]); (42883, [42882]);
   (42885, [42884]); (42887, [42886]); (42892, [42891]); (42897, [42896]);
   (42899, [42898]); (42900, [42948]); (42903, [42902]); (42905, [42904]);
   (42907, [42906]); (42909, [42908]); (42911, [42910]); (42913, [42912]);
   (42915, [42914]); (42917, [42916]); (42919, [42918]); (42921, [42920]);
   (42933, [42932]); (42935, [42934]); (42937, [42936]); (42939, [42938]);
   (42941, [42940]); (42943, [42942]); (42945, [42944]); (42947, [42946]);
   (42952, [42951]); (42954, [42953]); (42961, [42960]); (42967, [42966]);
   (42969, [42968]); (42998, [42997]); (43859, [42931]); (43888, [5024]);
   (43889, [5025]); (43890, [5026]); (43891, [5027]); (43892, [5028]);
   (43893, [5029]); (43894, [5030]); (43895, [5031]); (43896, [5032]);
   (43897, [5033]); (43898, [5034]); (43899, [5035]); (43900, [5036]);
   (43901, [5037]); (43902, [5038]); (43903, [5039]); (43904, [5040]);
   (43905, [5041]); (43906, [5042]); (43907, [5043]); (43908, [5044]);
   (43909, [5045]); (43910, [5046]); (43911, [5047]); (43912, [5048]);
   (43913, [5049]); (43914, [5050]); (43915, [5051]); (43916, [5052]);
   (43917, [5053]); (43918, [5054]); (43919, [5055]); (43920, [5056]);
   (43921, [5057]); (43922, [5058]); (43923, [5059]); (43924, [5060]);
   (43925, [5061]); (43926, [5062]); (43927, [5063]); (43928, [5064]);
   (43929, [5065]); (43930, [5066]); (43931, [5067]); (43932, [5068]);
   (43933, [5069]); (43934, [5070]); (43935, [5071]); (43936, [5072]);
   (43937, [5073]); (43938, [5074]); (43939, [5075]); (43940, [5076]);
   (43941, [5077]); (43942, [5078]); (43943, [5079]); (43944, [5080]);
   (43945, [5081]); (43946, [5082]); (43947, [5083]); (43948, [5084]);
   (43949, [5085]); (43950, [5086]); (43951, [5087]); (43952, [5088]);
   (43953, [5089]); (43954, [5090]); (43955, [5091]); (43956, [5092]);
   (43957, [5093]); (43958, [5094]); (43959, [5095]); (43960, [5096]);
   (43961, [5097]); (43962, [5098]); (43963, [5099]); (43964, [5100]);
   (43965, [5101]); (43966, [5102]); (43967, [5103]); (64256, [70; 70]);
   (64257, [70; 73]); (64258, [70; 76]); (64259, [70; 70; 73]);
   (64260, [70; 70; 76]); (64261, [83; 84]); (64262, [83; 84]);
   (64275, [1348; 1350]); (64276, [1348; 1333]); (64277, [1348; 1339]);
   (64278, [1358; 1350]); (64279, [1348; 1341]); (65345, [65313]);
   (65346, [65314]); (65347, [65315]); (65348, [65316]); (65349, [65317]);
   (65350, [65318]); (65351, [65319]); (65352, [65320]); (65353, [65321]);
   (65354, [65322]); (65355, [65323]); (65356, [65324]); (65357, [65325]);
   (65358, [65326]); (65359, [65327]); (65360, [65328]); (65361, [65329]);
   (65362, [65330]); (65363, [65331]); (65364, [65332]); (65365, [65333]);
   (65366, [65334]); (65367, [65335]); (65368, [65336]); (65369, [65337]);
   (65370, [65338]); (66600, [66560]); (66601, [66561]); (66602, [66562]);
   (66603, [66563]); (66604, [66564]); (66605, [66565]); (66606, [66566]);
   (66607, [66567]); (66608, [66568]); (66609, [66569]); (66610, [66570]);
   (66611, [66571]); (66612, [66572]); (66613, [66573]); (66614, [66574]);
   (66615, [66575]); (66616, [66576]); (66617, [66577]); (66618, [66578]);
   (66619, [66579]); (66620, [66580]); (66621, [66581]); (66622, [66582]);
   (66623, [66583]); (66624, [66584]); (66625, [66585]); (66626, [66586]);
   (66627, [66587]); (66628, [66588]); (66629, [66589]); (66630, [66590]);
   (66631, [66591]); (66632, [66592]); (66633, [66593]); (66634, [66594]);
   (66635, [66595]); (66636, [66596]); (66637, [66597]); (66638, [66598]);
   (66639, [66599]); (66776, [66736]); (66777, [66737]); (66778, [66738]);
   (66779, [66739]); (66780, [66740]); (66781, [66741]); (66782, [66742]);
   (66783, [66743]); (66784, [66744]); (66785, [66745]); (66786, [66746]);
   (66787, [66747]); (66788, [66748]); (66789, [66749]); (66790, [66750]);
   (66791, [66751]); (66792, [66752]); (66793, [66753]); (66794, [66754]);
   (66795, [66755]); (66796, [66756]); (66797, [66757]); (66798, [66758]);
   (66799, [66759]); (66800, [66760]); (66801, [66761]); (66802, [66762]);
   (66803, [66763]); (66804, [66764]); (66805, [66765]); (66806, [66766]);
   (66807, [66767]); (66808, [66768]); (66809, [66769]); (66810, [66770]);
   (66811, [66771]); (66967, [66928]); (66968, [66929]); (66969, [66930]);
   (66970, [66931]); (66971, [66932]); (66972, [66933]); (66973, [66934]);
   (66974, [66935]); (66975, [66936]); (66976, [66937]); (66977, [66938]);
   (66979, [66940]); (66980, [66941]); (66981, [66942]); (66982, [66943]);
   (66983, [66944]); (66984, [66945]); (66985, [66946]); (66986, [66947]);
   (66987, [66948]); (66988, [66949]); (66989, [66950]); (66990, [66951]);
   (66991, [66952]); (66992, [66953]); (66993, [66954]); (66995, [66956]);
   (66996, [66957]); (66997, [66958]); (66998, [66959]); (66999, [66960]);
   (67000, [66961]); (67001, [66962]); (67003, [66964]); (67004, [66965]);
   (68800, [68736]); (68801, [68737]); (68802, [68738]); (68803, [68739]);
   (68804, [68740]); (68805, [68741]); (68806, [68742]); (68807, [68743]);
   (68808, [68744]); (68809, [68745]); (68810, [68746]); (68811, [68747]);
   (68812, [68748]); (68813, [68749]); (68814, [68750]); (68815, [68751]);
   (68816, [68752]); (68817, [68753]); (68818, [68754]); (68819, [68755]);
   (68820, [68756]); (68821, [68757]); (68822, [68758]); (68823, [68759]);
   (68824, [68760]); (68825, [68761]); (68826, [68762]); (68827, [68763]);
   (68828, [68764]); (68829, [68765]); (68830, [68766]); (68831, [68767]);
   (68832, [68768]); (68833, [68769]); (68834, [68770]); (68835, [68771]);
   (68836, [68772]); (68837, [68773]); (68838, [68774]); (68839, [68775]);
   (68840, [68776]); (68841, [68777]); (68842, [68778]); (68843, [68779]);
   (68844, [68780]); (68845, [68781]); (68846, [68782]); (68847, [68783]);
   (68848, [68784]); (68849, [68785]); (68850, [68786]); (71872, [71840]);
   (71873, [71841]); (71874, [71842]); (71875, [71843]); (71876, [71844]);
   (71877, [71845]); (71878, [71846]); (71879, [71847]); (71880, [71848]);
   (71881, [71849]); (71882, [71850]); (71883, [71851]); (71884, [71852]);
   (71885, [71853]); (71886, [71854]); (71887, [71855]); (71888, [71856]);
   (71889, [71857]); (71890, [71858]); (71891, [71859]); (71892, [71860]);
   (71893, [71861]); (71894, [71862]); (71895, [71863]); (71896, [71864]);
   (71897, [71865]); (71898, [71866]); (71899, [71867]); (71900, [71868]);
   (71901, [71869]); (71902, [71870]); (71903, [71871]); (93792, [93760]);
   (93793, [93761]); (93794, [93762]); (93795, [93763]); (93796, [93764]);
   (93797, [93765]); (93798, [93766]); (93799, [93767]); (93800, [93768]);
   (93801, [93769]); (93802, [93770]); (93803, [93771]); (93804, [93772]);
   (93805, [93773]); (93806, [93774]); (93807, [93775]); (93808, [93776]);
   (93809, [93777]); (93810, [93778]); (93811, [93779]); (93812, [93780]);
   (93813, [93781]); (93814, [93782]); (93815, [93783]); (93816, [93784]);
   (93817, [93785]); (93818, [93786]); (93819, [93787]); (93820, [93788]);
   (93821, [93789]); (93822, [93790]); (93823, [93791]); (125218, [125184]);
   (125219, [125185]); (125220, [125186]); (125221, [125187]);
   (125222, [125188]); (125223, [125189]); (125224, [125190]);
   (125225, [125191]); (125226, [125192]); (125227, [125193]);
   (125228, [125194]); (125229, [125195]); (125230, [125196]);
   (125231, [125197]); (125232, [125198]); (125233, [125199]);
   (125234, [125200]); (125235, [125201]); (125236, [125202]);
   (125237, [125203]); (125238, [125204]); (125239, [125205]);
   (125240, [125206]); (125241, [125207]); (125242, [125208]);
   (125243, [125209]); (125244, [125210]); (125245, [125211]);
   (125246, [125212]); (125247, [125213]); (125248, [125214]);
   (125249, [125215]); (125250, [125216]); (125251, [125217])].

Fixpoint lookup (cp : N) (t : list (N * list N)) : option (list N) :=
  match t with
  | [] => None
  | (k, image) :: t' => if k =? cp then Some image else lookup cp t'
  end.

(** [toUppercase] on one code point. *)
Definition upper_point (cp : N) : list N :=
  match lookup cp upperTable with
  | Some image => image
  | None => [cp]
  end.

(** White space and line terminators, the characters [trim] removes and the
    members of [\s]: TAB, LF, VT, FF, CR, SPACE, U+00A0, U+1680,
    U+2000..U+200A, U+2028, U+2029, U+202F, U+205F, U+3000 and U+FEFF. *)
Definition is_space (u : N) : bool :=
  ((9 <=? u) && (u <=? 13)) || (u =? 32) || (u =? 160) || (u =? 5760)
  || ((8192 <=? u) && (u <=? 8202)) || (u =? 8232) || (u =? 8233)
  || (u =? 8239) || (u =? 8287) || (u =? 12288) || (u =? 65279).

(** High surrogates are U+D800..U+DBFF, low surrogates U+DC00..U+DFFF. *)
Definition is_high (u : N) : bool := (55296 <=? u) && (u <=? 56319).

Definition is_low (u : N) : bool := (56320 <=? u) && (u <=? 57343).

(** The code points of a string: a high surrogate followed by a low one is
    one code point, any other code unit is a code point by itself. *)
Fixpoint decode (s : list N) : list N :=
  match s with
  | [] => []
  | u :: r =>
      match r with
      | v :: r' =>
          if is_high u && is_low v
          then (65536 + (u - 55296) * 1024 + (v - 56320)) :: decode r'
          else u :: decode r
      | [] => [u]
      end
  end.

(** The code units of one code point. *)
Definition encode_point (cp : N) : list N :=
  if cp <? 65536 then [cp]
  else [55296 + (cp - 65536) / 1024; 56320 + (cp - 65536) mod 1024].

Definition encode (cps : list N) : list N := flat_map encode_point cps.

(** [s.toUpperCase()] *)
Definition toUpperCase (s : list N) : list N :=
  encode (flat_map upper_point (decode s)).

(** [s.trimStart()] *)
Fixpoint trimStart (s : list N) : list N :=
  match s with
  | [] => []
  | u :: r => if is_space u then trimStart r else s
  end.

(** [s.trimEnd()] *)
Fixpoint trimEnd (s : list N) : list N :=
  match s with
  | [] => []
  | u :: r =>
      match trimEnd r with
      | [] => if is_space u then [] else [u]
      | r' => u :: r'
      end
  end.

(** [s.trim()] *)
Definition trim (s : list N) : list N := trimEnd (trimStart s).

(** [s.replace(/\s+/g, "")] *)
Fixpoint replace_spaces (s : list N) : list N :=
  match s with
  | [] => []
  | u :: r => if is_space u then replace_spaces r else u :: replace_spaces r
  end.

(** What [recognition.onresult] computes from the raw transcript: the text it
    shows, and the key it stores. *)
Definition heard (raw : list N) : list N := toUpperCase (trim raw).

Definition normalize (raw : list N) : list N := replace_spaces (heard raw).

(** A string that is well-formed UTF-16: code units below 65536 and no
    surrogate without its partner. *)
Fixpoint wellFormed (s : list N) : bool :=
  match s with
  | [] => true
  | u :: r =>
      if is_high u
      then match r with
           | v :: r' => is_low v && wellFormed r'
           | [] => false
           end
      else negb (is_low u) && (u <? 65536) && wellFormed r
  end.

(** No white space anywhere in [s]. *)
Definition spaceless (s : list N) : bool := forallb (fun u => negb (is_space u)) s.

(** A Unicode scalar value: a code point that is not a surrogate. *)
Definition scalar (cp : N) : bool :=
  (cp <? 1114112) && negb ((55296 <=? cp) && (cp <=? 57343)).

(** What the proofs need of one entry of the table: a scalar value that is
    not white space goes to scalar values that are not white space and that
    the mapping leaves alone. *)
Definition entry_ok (e : N * list N) : bool :=
  scalar (fst e) && negb (is_space (fst e))
  && forallb (fun c => scalar c && negb (is_space c)
                       && match lookup c upperTable with
                          | None => true
                          | Some _ => false
                          end) (snd e).

(** The code units of a string of ASCII characters. *)
Definition ofAscii (s : string) : list N :=
  map N_of_ascii (list_ascii_of_string s).

End Js16.

(** Every character is below 128. *)
Fixpoint isAscii (s : string) : bool :=
  match s with
  | EmptyString => true
  | String c r => (nat_of_ascii c <? 128) && isAscii r
  end.

(** What the agreement of [Js] with [Js16] needs of one ASCII character. *)
Definition ascii_ok (c : ascii) : bool :=
  Bool.eqb (Js16.is_space (N_of_ascii c)) (Js.is_space c)
  && match Js16.upper_point (N_of_ascii c) with
     | [u] => (u =? N_of_ascii (Js.upper_char c))%N
     | _ => false
     end
  && negb (Js16.is_high (N_of_ascii c)) && negb (Js16.is_low (N_of_ascii c))
  && (N_of_ascii c <? 65536)%N
  && (nat_of_ascii (Js.upper_char c) <? 128).

(** ** Query normalisation, as [recognition.onresult] does it

    [heard] is the local [transcript] (trimmed and upper-cased, inner spaces
    kept, shown in the acknowledgement); [normalize] is the argument of
    [setSearchReg]. *)

Definition heard (raw : string) : string := Js.toUpperCase (Js.trim raw).

Definition normalize (raw : string) : string := Js.replace_spaces (heard raw).

(** ** Data of the component *)

(** The JSON object a gateway reply carries.  Only the members the component
    reads are kept; a member that is absent reads as [undefined], here [None].
    [price] holds the text the template prints for the number. *)
Record Json := mkJson {
  detail : option string;
  brand : option string;
  model : option string;
  reg : option string;
  price : option string
}.

(** The component state, one field per [useState]. *)
Record Store := mkStore {
  searchReg : string;
  vehicles : list Json;
  foundVehicle : option Json;
  error : string;
  actionMsg : string;
  isListening : bool
}.

(** What the callbacks of one render close over: the state values of that
    render.  [handleSearch] reads [searchReg] from here. *)
Record Render := mkRender { seen : Store }.

(** Optional globals of the browser: [window.SpeechRecognition ||
    window.webkitSpeechRecognition] and [window.speechSynthesis]. *)
Record Env := mkEnv {
  hasSpeechRecognition : bool;
  hasSpeechSynthesis : bool
}.

(** Calls that leave the component, in the order they are made. *)
Inductive Effect :=
| Alert (msg : string)
| ConsoleError (label code : string)
| PreventDefault
| RecognitionStart (lang : string) (continuous interimResults : bool)
| Fetch (url : string)
| Speak (text lang : string).

(** How an awaited [fetch] followed by [res.json()] ends: one of the two
    promises rejects with an error carrying [message], or a reply arrives
    with its [res.ok] flag and its parsed body. *)
Inductive Outcome :=
| Rejected (message : string)
| Replied (ok : bool) (data : Json).

(** A callback queued by [setTimeout]: the time it is due and the render
    whose [handleSearch] it calls. *)
Definition Timer := (nat * Render)%type.

(** Everything the event loop holds between two events. *)
Record World := mkWorld {
  store : Store;
  now : nat;
  timers : list Timer;
  inflight : list string;
  sessions : list Render;
  log : list Effect
}.

(** [inflight] lists the URLs of the searches suspended at their [await];
    [sessions] lists, per recognition object that was started, the render
    whose callbacks are installed on it. *)

Definition initialStore : Store :=
  mkStore "" [] None "" "" false.

Definition initialWorld : World :=
  mkWorld initialStore 0 [] [] [] [].

(** The render on screen: its callbacks see the live state. *)
Definition render (w : World) : Render := mkRender (store w).

(** ** State setters and primitive effects *)

Definition withStore (f : Store -> Store) (w : World) : World :=
  mkWorld (f (store w)) (now w) (timers w) (inflight w) (sessions w) (log w).

Definition setSearchReg (v : string) : World -> World :=
  withStore (fun s => mkStore v (vehicles s) (foundVehicle s) (error s) (actionMsg s) (isListening s)).

Definition setFoundVehicle (v : option Json) : World -> World :=
  withStore (fun s => mkStore (searchReg s) (vehicles s) v (error s) (actionMsg s) (isListening s)).

Definition setError (v : string) : World -> World :=
  withStore (fun s => mkStore (searchReg s) (vehicles s) (foundVehicle s) v (actionMsg s) (isListening s)).

Definition setActionMsg (v : string) : World -> World :=
  withStore (fun s => mkStore (searchReg s) (vehicles s) (foundVehicle s) (error s) v (isListening s)).

Definition setIsListening (v : bool) : World -> World :=
  withStore (fun s => mkStore (searchReg s) (vehicles s) (foundVehicle s) (error s) (actionMsg s) v).

Definition emit (e : Effect) (w : World) : World :=
  mkWorld (store w) (now w) (timers w) (inflight w) (sessions w) (log w ++ [e]).

(** [setTimeout(() => handleSearch(), delay)] inside a callback of render [r]. *)
Definition setTimeout (r : Render) (delay : nat) (w : World) : World :=
  mkWorld (store w) (now w) (timers w ++ [(now w + delay, r)]) (inflight w) (sessions w) (log w).

(** [await fetch(url)]: the request leaves and the caller is suspended. *)
Definition fetch (url : string) (w : World) : World :=
  mkWorld (store w) (now w) (timers w) (inflight w ++ [url]) (sessions w) (log w ++ [Fetch url]).

(** [recognition.start()] with the callbacks of render [r] installed. *)
Definition startRecognition (r : Render) (lang : string) (continuous interim : bool)
    (w : World) : World :=
  mkWorld (store w) (now w) (timers w) (inflight w) (sessions w ++ [r])
          (log w ++ [RecognitionStart lang continuous interim]).

(** ** The component's functions *)

Definition carsUrl : string := "http://127.0.0.1:8000/cars/".

Definition searchDelay : nat := 800.

Definition notFoundFallback : string := "Vehicle not found".

Definition unsupportedNotice : string :=
  "Voice recognition not supported in this browser!".

Definition listeningNotice : string :=
  "🎤 Listening... Please say the registration number".

Definition failureNotice : string :=
  "❌ Could not recognize voice. Try again.".

Definition heardNotice (transcript : string) : string :=
  ("✅ Heard: " ++ transcript)%string.

(** A template placeholder: an absent member prints as [undefined]. *)
Definition show (m : option string) : string :=
  match m with Some s => s | None => "undefined" end.

Definition announcement (vehicle : Json) : string :=
  ("Vehicle " ++ show (brand vehicle) ++ " " ++ show (model vehicle)
   ++ ", Registration " ++ show (reg vehicle)
   ++ ", Price ₹" ++ show (price vehicle))%string.

(** [speakResult(vehicle)]; [synth.speak] is a call that returns nothing
    and is taken not to throw. *)
Definition speakResult (env : Env) (vehicle : Json) (w : World) : World :=
  if negb (hasSpeechSynthesis env) then w
  else emit (Speak (announcement vehicle) "en-IN") w.

(** [handleSearch(e)] up to its first [await], as created by render [r];
    [e] tells whether a submit event was passed. *)
Definition handleSearch (r : Render) (e : bool) (w : World) : World :=
  let w := if e then emit PreventDefault w else w in
  let w := setError "" w in
  let w := setFoundVehicle None w in
  let w := setActionMsg "" w in
  fetch (carsUrl ++ searchReg (seen r))%string w.

(** [data.detail || "Vehicle not found"] *)
Definition errorText (data : Json) : string :=
  match detail data with
  | Some d => if Js.truthy d then d else notFoundFallback
  | None => notFoundFallback
  end.

(** The rest of [handleSearch], run when the awaited reply is in. *)
Definition handleSearch_resume (env : Env) (o : Outcome) (w : World) : World :=
  match o with
  | Rejected message => setError message w
  | Replied ok data =>
      if negb ok then setError (errorText data) w
      else speakResult env data (setFoundVehicle (Some data) w)
  end.

(** [recognition.onstart] *)
Definition onstart (w : World) : World :=
  setActionMsg listeningNotice (setIsListening true w).

(** [recognition.onresult], installed by render [r]; [raw] is
    [event.results[0][0].transcript]. *)
Definition onresult (r : Render) (raw : string) (w : World) : World :=
  let transcript := heard raw in
  let w := setSearchReg (Js.replace_spaces transcript) w in
  let w := setActionMsg (heardNotice transcript) w in
  let w := setIsListening false w in
  setTimeout r searchDelay w.

(** [recognition.onerror]; [code] is [event.error]. *)
Definition onerror (code : string) (w : World) : World :=
  let w := emit (ConsoleError "Voice recognition error:" code) w in
  let w := setIsListening false w in
  setActionMsg failureNotice w.

(** [recognition.onend] *)
Definition onend (w : World) : World := setIsListening false w.

(** [handleVoiceSearch()] of render [r].  Installing the four callbacks and
    calling [recognition.start()] is [startRecognition]. *)
Definition handleVoiceSearch (env : Env) (r : Render) (w : World) : World :=
  if negb (hasSpeechRecognition env) then emit (Alert unsupportedNotice) w
  else startRecognition r "en-IN" false false w.

(** ** The event loop *)

Inductive Event :=
| TypeInput (text : string)
| SubmitSearch
| ClickMic
| OnStart (session : nat)
| OnResult (session : nat) (transcript : string)
| OnError (session : nat) (code : string)
| OnEnd (session : nat)
| Elapse (ms : nat)
| Respond (request : nat) (o : Outcome).

(** [TypeInput] is the input's [onChange]; [SubmitSearch] is a submit of the
    form; [ClickMic] a click on the microphone button; the four [On...]
    events come from the recognition object started as the given session;
    [Elapse] lets time pass; [Respond] settles a suspended search. *)

Definition isDue (t : nat) (tm : Timer) : bool := fst tm <=? t.

(** Queued callbacks run in the order they were queued. *)
Definition fire (due : list Timer) (w : World) : World :=
  fold_left (fun w tm => handleSearch (snd tm) false w) due w.

Definition elapse (ms : nat) (w : World) : World :=
  let t := now w + ms in
  let due := filter (isDue t) (timers w) in
  let rest := filter (fun tm => negb (isDue t tm)) (timers w) in
  fire due (mkWorld (store w) t rest (inflight w) (sessions w) (log w)).

Fixpoint remove_nth {A : Type} (k : nat) (l : list A) : list A :=
  match l, k with
  | [], _ => []
  | _ :: l', 0 => l'
  | x :: l', S k' => x :: remove_nth k' l'
  end.

Definition settle (k : nat) (w : World) : World :=
  mkWorld (store w) (now w) (timers w) (remove_nth k (inflight w)) (sessions w) (log w).

(** An event of a recognition object reaches the callbacks installed on it;
    an object that was never started has none. *)
Definition deliver (k : nat) (h : Render -> World -> World) (w : World) : World :=
  match nth_error (sessions w) k with
  | Some r => h r w
  | None => w
  end.

Definition step (env : Env) (e : Event) (w : World) : World :=
  match e with
  | TypeInput text => setSearchReg text w
  | SubmitSearch =>
      (* the input is [required]: the browser does not submit an empty one *)
      if Js.truthy (searchReg (store w)) then handleSearch (render w) true w else w
  | ClickMic => handleVoiceSearch env (render w) w
  | OnStart k => deliver k (fun _ => onstart) w
  | OnResult k raw => deliver k (fun r => onresult r raw) w
  | OnError k code => deliver k (fun _ => onerror code) w
  | OnEnd k => deliver k (fun _ => onend) w
  | Elapse ms => elapse ms w
  | Respond k o =>
      match nth_error (inflight w) k with
      | Some _ => handleSearch_resume env o (settle k w)
      | None => w
      end
  end.

Definition run (env : Env) (es : list Event) (w : World) : World :=
  fold_left (fun w e => step env e w) es w.

(** ** Observations *)

(** The gateway requests made so far. *)
Fixpoint searches (l : list Effect) : list string :=
  match l with
  | [] => []
  | Fetch url :: l' => url :: searches l'
  | _ :: l' => searches l'
  end.

Definition resultShown (s : Store) : bool :=
  match foundVehicle s with Some _ => true | None => false end.

Definition errorShown (s : Store) : bool := Js.truthy (error s).

(** Exactly one of the result and the error is on display. *)
Definition exactlyOne (s : Store) : bool := xorb (resultShown s) (errorShown s).

Definition cleared (s : Store) : bool := negb (resultShown s) && negb (errorShown s).

Definition browser : Env := mkEnv true true.
Definition noVoice : Env := mkEnv false false.

Definition sampleVehicle : Json :=
  mkJson None (Some "Tata") (Some "Nexon") (Some "MH12AB1234") (Some "900000").

(** A search that ends in failure: a rejected promise or a reply whose
    [res.ok] is false. *)
Definition failed (o : Outcome) : bool :=
  match o with
  | Rejected _ => true
  | Replied ok _ => negb ok
  end.

(** The error of a rejected promise carries a message; a reply always
    settles one way or the other. *)
Definition hasMessage (o : Outcome) : bool :=
  match o with
  | Rejected message => Js.truthy message
  | Replied _ _ => true
  end.

(** The events at which a suspended search completes. *)
Definition isCompletion (e : Event) : bool :=
  match e with
  | Respond _ _ => true
  | _ => false
  end.

Definition notFoundBody : Json :=
  mkJson (Some "Vehicle not found") None None None None.

(** The events that come from a recognition object. *)
Definition isRecognitionEvent (e : Event) : bool :=
  match e with
  | OnStart _ | OnResult _ _ | OnError _ _ | OnEnd _ => true
  | _ => false
  end.

(** Due times in queue order never decrease. *)
Fixpoint ascending (l : list nat) : Prop :=
  match l with
  | [] => True
  | x :: r => Forall (fun y => x <= y) r /\ ascending r
  end.

(** A queued callback is due no further away than the delay. *)
Definition pendingWithinDelay (w : World) (tm : Timer) : Prop :=
  fst tm <= now w + searchDelay.

(** The queue of pending searches is in order and within the delay. *)
Definition timersInOrder (w : World) : Prop :=
  ascending (map fst (timers w)) /\ Forall (pendingWithinDelay w) (timers w).

(** ** The add-vehicle form (component [AddVehicle])

    The form state is a JavaScript object used as a record of ten text
    members.  Its member names are never integer-like, so the order of
    [Object.entries] is the order of insertion: an association list. *)

Module AddVehicle.

Definition Form := list (string * string).

(** The argument of [useState] for [form]. *)
Definition initialForm : Form :=
  [("reg", ""); ("brand", ""); ("model", ""); ("year", ""); ("price", "");
   ("kms", ""); ("fuel", ""); ("transmission", ""); ("owner", "");
   ("description", "")].

(** [Object.keys(form)] *)
Definition keys (f : Form) : list string := map fst f.

(** [form[name]] *)
Fixpoint get (name : string) (f : Form) : option string :=
  match f with
  | [] => None
  | (k, v) :: r => if String.eqb k name then Some v else get name r
  end.

(** [{ ...form, [name]: value }]: an existing member keeps its place and
    takes the new value, a new member goes to the end. *)
Fixpoint assign (name value : string) (f : Form) : Form :=
  match f with
  | [] => [(name, value)]
  | (k, v) :: r =>
      if String.eqb k name then (k, value) :: r else (k, v) :: assign name value r
  end.

(** The component state: [form], [images] (the selected files, by name) and
    [message]. *)
Record State := mkState {
  form : Form;
  images : list string;
  message : string
}.

(** A [fetch] with method POST: address, [Authorization] header and the
    entries of the [FormData] body in the order they were appended. *)
Record Request := mkRequest {
  url : string;
  authorization : string;
  body : Form
}.

Inductive Effect :=
| PreventDefault
| Post (r : Request)
| Navigate (path : string).

(** [timers] holds the due times of the queued [navigate("/dashboard")]
    callbacks, [inflight] the requests suspended at their [await]. *)
Record World := mkWorld {
  state : State;
  now : nat;
  timers : list nat;
  inflight : list Request;
  log : list Effect
}.

Definition initialState : State := mkState initialForm [] "".

Definition initialWorld : World := mkWorld initialState 0 [] [] [].

Definition withState (f : State -> State) (w : World) : World :=
  mkWorld (f (state w)) (now w) (timers w) (inflight w) (log w).

Definition setForm (v : Form) : World -> World :=
  withState (fun s => mkState v (images s) (message s)).

Definition setImages (v : list string) : World -> World :=
  withState (fun s => mkState (form s) v (message s)).

Definition setMessage (v : string) : World -> World :=
  withState (fun s => mkState (form s) (images s) v).

Definition emit (e : Effect) (w : World) : World :=
  mkWorld (state w) (now w) (timers w) (inflight w) (log w ++ [e]).

Definition setTimeout (delay : nat) (w : World) : World :=
  mkWorld (state w) (now w) (timers w ++ [now w + delay]) (inflight w) (log w).

Definition post (r : Request) (w : World) : World :=
  mkWorld (state w) (now w) (timers w) (inflight w ++ [r]) (log w ++ [Post r]).

Definition carsEndpoint : string := "http://127.0.0.1:8000/cars".

Definition redirectDelay : nat := 1500.

Definition addedNotice : string := " Vehicle added successfully!".

Definition addFailedFallback : string := "Failed to add vehicle".

(** [handleChange(e)] of the render that sees [r]; [name] and [value] are
    [e.target.name] and [e.target.value]. *)
Definition handleChange (r : State) (name value : string) (w : World) : World :=
  setForm (assign name value (form r)) w.

(** [handleFileChange(e)]; [files] is [e.target.files]. *)
Definition handleFileChange (files : list string) (w : World) : World :=
  setImages files w.

(** The entries appended to the [FormData]: every member of the form, then
    one [images] entry per file. *)
Definition formData (r : State) : Form :=
  form r ++ map (fun file => ("images", file)) (images r).

(** [handleSubmit(e)] up to its first [await], in the render that sees [r]
    and has the prop [token]. *)
Definition handleSubmit (token : string) (r : State) (w : World) : World :=
  let w := emit PreventDefault w in
  let w := setMessage "" w in
  post (mkRequest carsEndpoint ("Bearer " ++ token) (formData r)) w.

(** [data.detail || "Failed to add vehicle"] after the leading blank of the
    template. *)
Definition failureText (data : Json) : string :=
  (" " ++ match detail data with
          | Some d => if Js.truthy d then d else addFailedFallback
          | None => addFailedFallback
          end)%string.

(** The rest of [handleSubmit].  There is no [try]: when the request or the
    parsing of its body is rejected the function ends there. *)
Definition handleSubmit_resume (o : Outcome) (w : World) : World :=
  match o with
  | Rejected _ => w
  | Replied ok data =>
      if ok then setTimeout redirectDelay (setMessage addedNotice w)
      else setMessage (failureText data) w
  end.

(** Every input of the form is [required]: the browser submits only when
    none of them is empty. *)
Definition complete (f : Form) : bool :=
  forallb (fun kv => Js.truthy (snd kv)) f.

Inductive Event :=
| Change (name value : string)
| Files (files : list string)
| Submit
| Reply (request : nat) (o : Outcome)
| Elapse (ms : nat).

Definition settle (k : nat) (w : World) : World :=
  mkWorld (state w) (now w) (timers w) (remove_nth k (inflight w)) (log w).

(** Time passes: the callbacks that are due run, each one navigating. *)
Definition elapse (ms : nat) (w : World) : World :=
  let t := now w + ms in
  let due := filter (fun d => d <=? t) (timers w) in
  let rest := filter (fun d => negb (d <=? t)) (timers w) in
  mkWorld (state w) t rest (inflight w)
          (log w ++ map (fun _ => Navigate "/dashboard") due).

Definition step (token : string) (e : Event) (w : World) : World :=
  match e with
  | Change name value => handleChange (state w) name value w
  | Files files => handleFileChange files w
  | Submit =>
      if complete (form (state w)) then handleSubmit token (state w) w else w
  | Reply k o =>
      match nth_error (inflight w) k with
      | Some _ => handleSubmit_resume o (settle k w)
      | None => w
      end
  | Elapse ms => elapse ms w
  end.

Definition run (token : string) (es : list Event) (w : World) : World :=
  fold_left (fun w e => step token e w) es w.

(** The inputs are generated from the members of the form: a change event
    carries the name of one of them. *)
Definition fromAnInput (f : Form) (e : Event) : bool :=
  match e with
  | Change name _ => existsb (String.eqb name) (keys f)
  | _ => true
  end.

(** The requests posted so far. *)
Fixpoint posted (l : list Effect) : list Request :=
  match l with
  | [] => []
  | Post r :: l' => r :: posted l'
  | _ :: l' => posted l'
  end.

(** The navigations made so far. *)
Fixpoint visited (l : list Effect) : list string :=
  match l with
  | [] => []
  | Navigate path :: l' => path :: visited l'
  | _ :: l' => visited l'
  end.

Definition filledForm : Form :=
  [("reg", "MH12AB1234"); ("brand", "Tata"); ("model", "Nexon"); ("year", "2021");
   ("price", "900000"); ("kms", "15000"); ("fuel", "Petrol");
   ("transmission", "Manual"); ("owner", "First"); ("description", "Clean")].

Definition fillEvents : list Event :=
  map (fun kv => Change (fst kv) (snd kv)) filledForm.

(** What a posted request looks like. *)
Definition shaped (token : string) (r : Request) : Prop :=
  url r = carsEndpoint /\
  authorization r = ("Bearer " ++ token)%string /\
  exists f files,
    body r = f ++ map (fun file => ("images", file)) files /\
    keys f = keys initialForm /\
    complete f = true.

(** The form has its ten members and every request made so far is
    [shaped]. *)
Definition wellFormed (token : string) (w : World) : Prop :=
  keys (form (state w)) = keys initialForm /\
  (forall r, In r (inflight w) -> shaped token r) /\
  (forall r, In r (posted (log w)) -> shaped token r).

End AddVehicle.

(** ** The vehicle page (component [VehicleDetails])

    The page loads one vehicle when it is mounted, shows it, and offers to
    mark it as sold or to delete it.  The lines of the card that show
    numbers (year, kilometres, price) are left out of the view. *)

Module Details.

(** The JSON object of a reply, with the members the page reads.  Numbers
    are held as the text a template prints for them; [is_sold] is read for
    its truth value only. *)
Record Body := mkBody {
  detail : option string;
  brand : option string;
  model : option string;
  reg : option string;
  year : option string;
  fuel : option string;
  transmission : option string;
  owner : option string;
  kms : option string;
  price : option string;
  description : option string;
  is_sold : bool;
  images : option (list string)
}.

(** How an awaited [fetch] followed by [res.json()] ends. *)
Inductive Reply :=
| Rejected (message : string)
| Replied (ok : bool) (data : Body).

(** The component state, one field per [useState]. *)
Record State := mkState {
  vehicle : option Body;
  msg : string;
  photoIndex : nat;
  isOpen : bool
}.

Inductive Effect :=
| Get (url : string)
| Patch (url authorization : string)
| Delete (url authorization : string)
| Confirm (question : string)
| Speak (text lang : string)
| Navigate (path : string).

(** A function suspended at its [await]: [fetchVehicle], [markAsSold] with
    the [vehicle] its render saw, or [deleteVehicle]. *)
Inductive Pending :=
| Loading
| Marking (seen : Body)
| Deleting.

Record World := mkWorld {
  state : State;
  now : nat;
  timers : list nat;
  inflight : list Pending;
  log : list Effect
}.

Definition initialState : State := mkState None "" 0 false.

Definition initialWorld : World := mkWorld initialState 0 [] [] [].

Definition withState (f : State -> State) (w : World) : World :=
  mkWorld (f (state w)) (now w) (timers w) (inflight w) (log w).

Definition setVehicle (v : option Body) : World -> World :=
  withState (fun s => mkState v (msg s) (photoIndex s) (isOpen s)).

Definition setMsg (v : string) : World -> World :=
  withState (fun s => mkState (vehicle s) v (photoIndex s) (isOpen s)).

Definition setPhotoIndex (v : nat) : World -> World :=
  withState (fun s => mkState (vehicle s) (msg s) v (isOpen s)).

Definition setIsOpen (v : bool) : World -> World :=
  withState (fun s => mkState (vehicle s) (msg s) (photoIndex s) v).

Definition emit (e : Effect) (w : World) : World :=
  mkWorld (state w) (now w) (timers w) (inflight w) (log w ++ [e]).

Definition setTimeout (delay : nat) (w : World) : World :=
  mkWorld (state w) (now w) (timers w ++ [now w + delay]) (inflight w) (log w).

(** [await fetch(...)]: the request leaves and the caller is suspended. *)
Definition await (request : Effect) (p : Pending) (w : World) : World :=
  mkWorld (state w) (now w) (timers w) (inflight w ++ [p]) (log w ++ [request]).

Definition server : string := "http://127.0.0.1:8000".

Definition redirectDelay : nat := 1500.

Definition newline : string := String (ascii_of_nat 10) "".

(** [a || b] on a member that holds text. *)
Definition orElse (m : option string) (fallback : string) : string :=
  match m with
  | Some s => if Js.truthy s then s else fallback
  | None => fallback
  end.

(** The text of [speakDetails], a template that runs over three lines. *)
Definition spokenDetails (v : Body) : string :=
  ("Showing details for " ++ show (brand v) ++ " " ++ show (model v)
   ++ ", Registration " ++ show (reg v) ++ ". " ++ newline
   ++ "      It is a " ++ show (year v) ++ " model with " ++ show (fuel v)
   ++ " engine and " ++ show (transmission v) ++ " transmission. " ++ newline
   ++ "      The price is ₹" ++ show (price v) ++ ".")%string.

(** [speakDetails(v)] *)
Definition speakDetails (env : Env) (v : Body) (w : World) : World :=
  if negb (hasSpeechSynthesis env) then w
  else emit (Speak (spokenDetails v) "en-IN") w.

(** [fetchVehicle()] up to its first [await]; [reg] is the route parameter. *)
Definition fetchVehicle (reg : string) (w : World) : World :=
  await (Get (server ++ "/cars/" ++ reg)) Loading w.

(** The rest of [fetchVehicle]. *)
Definition fetchVehicle_resume (env : Env) (o : Reply) (w : World) : World :=
  match o with
  | Rejected message => setMsg ("❌ " ++ message) w
  | Replied ok data =>
      if negb ok then setMsg ("❌ " ++ orElse (detail data) "Vehicle not found") w
      else speakDetails env data (setVehicle (Some data) w)
  end.

(** [{ ...vehicle, is_sold: true }] *)
Definition sold (v : Body) : Body :=
  mkBody (detail v) (brand v) (model v) (reg v) (year v) (fuel v)
         (transmission v) (owner v) (kms v) (price v) (description v) true
         (images v).

(** [markAsSold()] up to its [await], in the render that sees [seen]. *)
Definition markAsSold (reg token : string) (seen : Body) (w : World) : World :=
  await (Patch (server ++ "/cars/" ++ reg ++ "/sold") ("Bearer " ++ token))
        (Marking seen) w.

(** The rest of [markAsSold]; it has no [try], so a rejection ends it. *)
Definition markAsSold_resume (seen : Body) (o : Reply) (w : World) : World :=
  match o with
  | Rejected _ => w
  | Replied ok data =>
      if ok then setVehicle (Some (sold seen)) (setMsg "✅ Marked as sold successfully!" w)
      else setMsg ("❌ " ++ show (detail data)) w
  end.

Definition deleteQuestion : string := "Are you sure you want to delete this vehicle?".

(** [deleteVehicle()] up to its [await]; [answer] is what [window.confirm]
    returns. *)
Definition deleteVehicle (reg token : string) (answer : bool) (w : World) : World :=
  let w := emit (Confirm deleteQuestion) w in
  if negb answer then w
  else await (Delete (server ++ "/cars/" ++ reg) ("Bearer " ++ token)) Deleting w.

(** The rest of [deleteVehicle]; no [try] here either. *)
Definition deleteVehicle_resume (o : Reply) (w : World) : World :=
  match o with
  | Rejected _ => w
  | Replied ok data =>
      if ok then setTimeout redirectDelay (setMsg "🗑️ Vehicle deleted successfully!" w)
      else setMsg ("❌ " ++ show (detail data)) w
  end.

(** *** What the page shows *)

Record Card := mkCard {
  title : string;
  registration : string;
  fuelLine : string;
  transmissionLine : string;
  ownerLine : string;
  status : string;
  descriptionLine : string;
  gallery : list string;
  soldButton : bool;
  notice : option string;
  lightbox : option nat
}.

Inductive Page :=
| LoadingPage
| DetailsPage (card : Card).

(** [vehicle.images?.map(...)], with the missing member shown like the empty
    list: both give "No images available". *)
Definition imageUrls (v : Body) : list string :=
  match images v with
  | Some l => map (fun img => (server ++ img)%string) l
  | None => []
  end.

(** The render: nothing but the loading line while there is no vehicle. *)
Definition view (s : State) : Page :=
  match vehicle s with
  | None => LoadingPage
  | Some v =>
      DetailsPage
        (mkCard (orElse (brand v) "Unknown" ++ " " ++ orElse (model v) "")
                (orElse (reg v) "N/A")
                (orElse (fuel v) "N/A")
                (orElse (transmission v) "N/A")
                (orElse (owner v) "N/A")
                (if is_sold v then "✅ SOLD" else "🚗 Available")
                (orElse (description v) "No details available")
                (imageUrls v)
                (negb (is_sold v))
                (if Js.truthy (msg s) then Some (msg s) else None)
                (if isOpen s then Some (photoIndex s) else None))
  end.

(** *** The event loop *)

Inductive Event :=
| ClickSold
| ClickDelete (answer : bool)
| ClickImage (i : nat)
| CloseLightbox
| Answer (request : nat) (o : Reply)
| Elapse (ms : nat).

Definition settle (k : nat) (w : World) : World :=
  mkWorld (state w) (now w) (timers w) (remove_nth k (inflight w)) (log w).

Definition resume (env : Env) (p : Pending) (o : Reply) (w : World) : World :=
  match p with
  | Loading => fetchVehicle_resume env o w
  | Marking seen => markAsSold_resume seen o w
  | Deleting => deleteVehicle_resume o w
  end.

Definition elapse (ms : nat) (w : World) : World :=
  let t := now w + ms in
  let due := filter (fun d => d <=? t) (timers w) in
  let rest := filter (fun d => negb (d <=? t)) (timers w) in
  mkWorld (state w) t rest (inflight w)
          (log w ++ map (fun _ => Navigate "/dashboard") due).

(** A click reaches a handler only when the page shows the element: the
    buttons and the images exist once a vehicle is there, the button to mark
    it only while it is not sold, the viewer only while it is open. *)
Definition step (env : Env) (reg token : string) (e : Event) (w : World) : World :=
  match e with
  | ClickSold =>
      match vehicle (state w) with
      | Some v => if is_sold v then w else markAsSold reg token v w
      | None => w
      end
  | ClickDelete answer =>
      match vehicle (state w) with
      | Some _ => deleteVehicle reg token answer w
      | None => w
      end
  | ClickImage i =>
      match vehicle (state w) with
      | Some v => if i <? length (imageUrls v) then setIsOpen true (setPhotoIndex i w) else w
      | None => w
      end
  | CloseLightbox =>
      match vehicle (state w) with
      | Some _ => if isOpen (state w) then setIsOpen false w else w
      | None => w
      end
  | Answer k o =>
      match nth_error (inflight w) k with
      | Some p => resume env p o (settle k w)
      | None => w
      end
  | Elapse ms => elapse ms w
  end.

Definition run (env : Env) (reg token : string) (es : list Event) (w : World) : World :=
  fold_left (fun w e => step env reg token e w) es w.

(** The page as mounted: the effect has called [fetchVehicle]. *)
Definition mounted (reg : string) : World := fetchVehicle reg initialWorld.

(** A load, a marking or a deletion that did not succeed. *)
Definition failed (o : Reply) : bool :=
  match o with
  | Rejected _ => true
  | Replied ok _ => negb ok
  end.

Fixpoint visited (l : list Effect) : list string :=
  match l with
  | [] => []
  | Navigate path :: l' => path :: visited l'
  | _ :: l' => visited l'
  end.

Definition nexon : Body :=
  mkBody None (Some "Tata") (Some "Nexon") (Some "MH12AB1234") (Some "2021")
         (Some "Petrol") (Some "Manual") (Some "First") (Some "15000")
         (Some "900000") None false
         (Some ["/uploads/front.png"; "/uploads/rear.png"]).

Definition refusal : Body :=
  mkBody (Some "Not authorized") None None None None None None None None None
         None false None.

Definition emptyBody : Body :=
  mkBody None None None None None None None None None None None false None.

(** Nothing is left that could change the page: no vehicle, no request
    under way, no callback queued. *)
Definition stranded (w : World) : Prop :=
  vehicle (state w) = None /\ inflight w = [] /\ timers w = [].

(** While the page loads, the load is the only request and the viewer is
    closed; once a vehicle is shown, no load is under way, an open viewer
    points inside the gallery, and a marking under way saw the same images. *)
Definition consistent (w : World) : Prop :=
  match vehicle (state w) with
  | None =>
      isOpen (state w) = false /\ (inflight w = [] \/ inflight w = [Loading])
  | Some v =>
      (isOpen (state w) = true -> photoIndex (state w) < length (imageUrls v)) /\
      (forall p, In p (inflight w) ->
         match p with
         | Loading => False
         | Marking seen => images seen = images v
         | Deleting => True
         end)
  end.

End Details.

(** ** The application shell (component [App]), the login page (component
    [Login]) and the logout of the dashboard

    A location is the route the router has matched; the pages behind the
    three guarded routes are not looked into here. *)

Module Site.

Inductive Location :=
| AtRoot
| AtDashboard
| AtAddVehicle
| AtVehicle (reg : string)
| Elsewhere.

(** [AtRoot] is [/], [AtDashboard] is [/dashboard], [AtAddVehicle] is
    [/add-vehicle], [AtVehicle reg] is [/vehicle/:reg]; [Elsewhere] is an
    address no route matches. *)

Inductive Page :=
| LoginPage
| DashboardPage
| AddVehiclePage
| VehiclePage (reg : string)
| RedirectToRoot
| Blank.

(** The JSON object of a login reply. *)
Record LoginBody := mkLoginBody {
  detail : option string;
  access_token : option string
}.

Inductive LoginReply :=
| Rejected (message : string)
| Replied (ok : bool) (data : LoginBody).

(** The state of [Login], one field per [useState]. *)
Record LoginState := mkLoginState {
  username : string;
  password : string;
  error : string
}.

Definition freshLogin : LoginState := mkLoginState "" "" "".

Inductive Effect :=
| PreventDefault
| PostLogin (url contentType : string) (body : list (string * string)).

(** [token] is the state of [App] ([None] for [null] and [undefined]);
    [stored] is the item [token] of [localStorage]; [login] is the state of
    the login page that is mounted, the [mounts]-th one; [inflight] lists the
    login requests suspended at their [await], each with the number of the
    login page that sent it. *)
Record World := mkWorld {
  token : option string;
  stored : option string;
  location : Location;
  login : LoginState;
  mounts : nat;
  inflight : list nat;
  log : list Effect
}.

(** A new login page is mounted in place of the one that was left. *)
Definition remount (l : Location) (w : World) : World :=
  mkWorld (token w) (stored w) l freshLogin (S (mounts w)) (inflight w) (log w).

(** A value used as a condition: [null], [undefined] and the empty string
    are falsy. *)
Definition truthy (t : option string) : bool :=
  match t with
  | Some s => Js.truthy s
  | None => false
  end.

(** The element the routes of [App] give for a location. *)
Definition route (t : option string) (l : Location) : Page :=
  match l with
  | AtRoot => LoginPage
  | AtDashboard => if truthy t then DashboardPage else RedirectToRoot
  | AtAddVehicle => if truthy t then AddVehiclePage else RedirectToRoot
  | AtVehicle reg => if truthy t then VehiclePage reg else RedirectToRoot
  | Elsewhere => Blank
  end.

(** Rendering [<Navigate to="/" />] moves to the root, where a new login
    page is mounted. *)
Definition settle (w : World) : World :=
  match route (token w) (location w) with
  | RedirectToRoot => remount AtRoot w
  | _ => w
  end.

(** What is on screen. *)
Definition page (w : World) : Page := route (token w) (location w).

(** [navigate(l)]: the page that is left is unmounted, so a login page shown
    afterwards starts from its initial state. *)
Definition navigate (l : Location) (w : World) : World :=
  match location w, l with
  | AtRoot, AtRoot => w
  | _, _ => settle (remount l w)
  end.

(** The browser loads the application at [l]: [App] starts with the stored
    token, and whatever was under way is gone. *)
Definition load (l : Location) (w : World) : World :=
  settle (mkWorld (stored w) (stored w) l freshLogin (S (mounts w)) [] (log w)).

Definition onLoginPage (w : World) : bool :=
  match location w with AtRoot => true | _ => false end.

(** A setter of the [origin]-th login page: on a page that is no longer
    mounted it does nothing. *)
Definition withLogin (origin : nat) (f : LoginState -> LoginState) (w : World) : World :=
  if onLoginPage w && (origin =? mounts w)
  then mkWorld (token w) (stored w) (location w) (f (login w)) (mounts w)
               (inflight w) (log w)
  else w.

Definition setUsername (origin : nat) (v : string) : World -> World :=
  withLogin origin (fun s => mkLoginState v (password s) (error s)).

Definition setPassword (origin : nat) (v : string) : World -> World :=
  withLogin origin (fun s => mkLoginState (username s) v (error s)).

Definition setError (origin : nat) (v : string) : World -> World :=
  withLogin origin (fun s => mkLoginState (username s) (password s) v).

(** [setToken] of [App]. *)
Definition setToken (v : option string) (w : World) : World :=
  mkWorld v (stored w) (location w) (login w) (mounts w) (inflight w) (log w).

(** [localStorage.setItem("token", v)]: the value is stored as text. *)
Definition setItem (v : option string) (w : World) : World :=
  mkWorld (token w) (Some (show v)) (location w) (login w) (mounts w) (inflight w)
          (log w).

(** [localStorage.removeItem("token")] *)
Definition removeItem (w : World) : World :=
  mkWorld (token w) None (location w) (login w) (mounts w) (inflight w) (log w).

Definition loginUrl : string := "http://127.0.0.1:8000/auth/login".

Definition formEncoded : string := "application/x-www-form-urlencoded".

(** [handleSubmit(e)] of [Login] up to its first [await]. *)
Definition handleSubmit (w : World) : World :=
  let w := setError (mounts w) "" w in
  mkWorld (token w) (stored w) (location w) (login w) (mounts w)
          (inflight w ++ [mounts w])
          (log w ++ [PreventDefault;
                     PostLogin loginUrl formEncoded
                               [("username", username (login w));
                                ("password", password (login w))]]).

(** [data.detail || "Login failed"] *)
Definition loginErrorText (data : LoginBody) : string :=
  match detail data with
  | Some d => if Js.truthy d then d else "Login failed"
  | None => "Login failed"
  end.

(** The rest of [handleSubmit], for the request of the [origin]-th login
    page. *)
Definition handleSubmit_resume (origin : nat) (o : LoginReply) (w : World) : World :=
  match o with
  | Rejected message => setError origin message w
  | Replied ok data =>
      if negb ok then setError origin (loginErrorText data) w
      else
        let w := setItem (access_token data) w in
        let w := setToken (access_token data) w in
        navigate AtDashboard w
  end.

(** [handleLogout()] of the dashboard. *)
Definition handleLogout (w : World) : World :=
  navigate AtRoot (removeItem w).

Inductive Event :=
| TypeUsername (text : string)
| TypePassword (text : string)
| SubmitLogin
| Reply (request : nat) (o : LoginReply)
| Logout
| Go (l : Location)
| Load (l : Location).

(** [Go] is a move inside the running application (a link, or the history);
    [Load] opens or reloads it at an address.  The two inputs of the login
    form are [required]; the logout button is part of the dashboard. *)
Definition step (e : Event) (w : World) : World :=
  match e with
  | TypeUsername text => setUsername (mounts w) text w
  | TypePassword text => setPassword (mounts w) text w
  | SubmitLogin =>
      if onLoginPage w && Js.truthy (username (login w)) && Js.truthy (password (login w))
      then handleSubmit w else w
  | Reply k o =>
      match nth_error (inflight w) k with
      | Some origin =>
          handleSubmit_resume origin o
            (mkWorld (token w) (stored w) (location w) (login w) (mounts w)
                     (remove_nth k (inflight w)) (log w))
      | None => w
      end
  | Logout =>
      match page w with
      | DashboardPage => handleLogout w
      | _ => w
      end
  | Go l => navigate l w
  | Load l => load l w
  end.

Definition run (es : list Event) (w : World) : World :=
  fold_left (fun w e => step e w) es w.

(** A browser that has never logged in, opening the application at [l]. *)
Definition firstVisit (l : Location) : World :=
  load l (mkWorld None None l freshLogin 0 [] []).

Definition guarded (p : Page) : bool :=
  match p with
  | DashboardPage | AddVehiclePage | VehiclePage _ => true
  | _ => false
  end.

(** A reply of the login endpoint that is ok. *)
Definition accepts (e : Event) : bool :=
  match e with
  | Reply _ (Replied true _) => true
  | _ => false
  end.

(** No token anywhere: neither in the state of [App] nor in the storage. *)
Definition tokenless (w : World) : Prop :=
  token w = None /\ stored w = None.

End Site.

(** * Properties *)

(** ** Normalisation *)

Example normalize_plate : normalize "MH 12 AB 1234" = "MH12AB1234".
Proof. reflexivity. Qed.

Example normalize_mixed : normalize "  mh 12  ab 1234 " = "MH12AB1234".
Proof. reflexivity. Qed.

Example heard_mixed : heard "  mh 12  ab 1234 " = "MH 12  AB 1234".
Proof. reflexivity. Qed.

Module Js16Facts.
Import Js16.
Local Open Scope N_scope.

Lemma table_ok : forallb entry_ok upperTable = true.
Proof. vm_compute. reflexivity. Qed.

Local Opaque upperTable.

Lemma lookup_In cp t image : lookup cp t = Some image -> In (cp, image) t.
Proof.
  induction t as [|[k i] t IH]; simpl; [discriminate|].
  destruct (k =? cp) eqn:E.
  - intros H. inversion H; subst. apply N.eqb_eq in E. subst. now left.
  - intros H. right. now apply IH.
Qed.

Lemma entry_of_lookup cp image :
  lookup cp upperTable = Some image -> entry_ok (cp, image) = true.
Proof.
  intros H. apply lookup_In in H.
  pose proof table_ok as T. rewrite forallb_forall in T. now apply T.
Qed.

(** White space is left alone by the upper-case mapping. *)
Lemma upper_point_space cp : is_space cp = true -> upper_point cp = [cp].
Proof.
  intros Hs. unfold upper_point.
  destruct (lookup cp upperTable) as [image|] eqn:E; [|reflexivity].
  apply entry_of_lookup in E. unfold entry_ok in E. simpl in E.
  rewrite Hs in E. rewrite andb_false_r in E. discriminate.
Qed.

(** What the mapping gives for a scalar value is scalar, is white space
    only if the value was, and is left alone by the mapping. *)
Lemma upper_point_image cp c :
  scalar cp = true -> In c (upper_point cp) ->
  scalar c = true /\ (is_space cp = false -> is_space c = false) /\
  upper_point c = [c].
Proof.
  intros Hc Hin. unfold upper_point in Hin.
  destruct (lookup cp upperTable) as [image|] eqn:E.
  - apply entry_of_lookup in E. unfold entry_ok in E. simpl in E.
    apply andb_prop in E as [_ E]. rewrite forallb_forall in E.
    specialize (E c Hin). apply andb_prop in E as [E E3].
    apply andb_prop in E as [E1 E2]. apply negb_true_iff in E2.
    split; [exact E1|]. split; [now intros _|].
    unfold upper_point. now destruct (lookup c upperTable).
  - destruct Hin as [<-|[]]. split; [exact Hc|]. split; [trivial|].
    unfold upper_point. now rewrite E.
Qed.

Lemma space_is_bmp u : is_space u = true -> (u <? 65536) = true /\ scalar u = true.
Proof.
  unfold is_space, scalar. intros H.
  repeat (apply orb_prop in H as [H|H]);
    repeat (apply andb_prop in H as [? H]);
    repeat match goal with
           | X : (_ <=? _) = true |- _ => apply N.leb_le in X
           | X : (_ =? _) = true |- _ => apply N.eqb_eq in X
           end;
    (split; [apply N.ltb_lt; lia|]);
    (apply andb_true_intro; split;
     [apply N.ltb_lt; lia
     |apply negb_true_iff, andb_false_iff;
      destruct (N.leb_spec 55296 u); [right; apply N.leb_gt; lia | now left]]).
Qed.

Lemma surrogate_not_space u :
  55296 <= u -> u <= 57343 -> is_space u = false.
Proof.
  intros H1 H2. unfold is_space.
  replace (u <=? 13) with false by (symmetry; apply N.leb_gt; lia).
  replace (u <=? 8202) with false by (symmetry; apply N.leb_gt; lia).
  replace (u =? 32) with false by (symmetry; apply N.eqb_neq; lia).
  replace (u =? 160) with false by (symmetry; apply N.eqb_neq; lia).
  replace (u =? 5760) with false by (symmetry; apply N.eqb_neq; lia).
  replace (u =? 8232) with false by (symmetry; apply N.eqb_neq; lia).
  replace (u =? 8233) with false by (symmetry; apply N.eqb_neq; lia).
  replace (u =? 8239) with false by (symmetry; apply N.eqb_neq; lia).
  replace (u =? 8287) with false by (symmetry; apply N.eqb_neq; lia).
  replace (u =? 12288) with false by (symmetry; apply N.eqb_neq; lia).
  replace (u =? 65279) with false by (symmetry; apply N.eqb_neq; lia).
  now rewrite !andb_false_r.
Qed.

(** The shape of the code units of a scalar value. *)
Lemma encode_point_shape cp :
  scalar cp = true ->
  (encode_point cp = [cp] /\ is_high cp = false /\ is_low cp = false /\
   (cp <? 65536) = true) \/
  (exists h l, encode_point cp = [h; l] /\ is_high h = true /\ is_low l = true /\
               65536 + (h - 55296) * 1024 + (l - 56320) = cp /\
               is_space cp = false /\ is_space h = false /\ is_space l = false).
Proof.
  unfold scalar, encode_point. intros H. apply andb_prop in H as [H1 H2].
  apply N.ltb_lt in H1. apply negb_true_iff in H2.
  destruct (N.ltb_spec cp 65536) as [Hb|Hb].
  - left. split; [reflexivity|]. unfold is_high, is_low.
    apply andb_false_iff in H2.
    assert (Hs : cp < 55296 \/ 57343 < cp)
      by (destruct H2 as [H2|H2]; apply N.leb_gt in H2; lia).
    repeat split.
    + apply andb_false_iff. destruct Hs; [left | right]; apply N.leb_gt; lia.
    + apply andb_false_iff. destruct Hs; [left | right]; apply N.leb_gt; lia.
  - right.
    pose proof (N.div_mod (cp - 65536) 1024 ltac:(lia)) as E.
    pose proof (N.mod_lt (cp - 65536) 1024 ltac:(lia)) as L.
    assert (Q : (cp - 65536) / 1024 < 1024)
      by (apply N.Div0.div_lt_upper_bound; lia).
    set (q := (cp - 65536) / 1024) in *. set (r := (cp - 65536) mod 1024) in *.
    exists (55296 + q), (56320 + r). clearbody q r.
    split; [reflexivity|].
    split; [unfold is_high; apply andb_true_intro; split; apply N.leb_le; lia|].
    split; [unfold is_low; apply andb_true_intro; split; apply N.leb_le; lia|].
    split; [lia|].
    split; [|split; apply surrogate_not_space; lia].
    destruct (is_space cp) eqn:Hs; [|reflexivity].
    apply space_is_bmp in Hs as [Hs _]. apply N.ltb_lt in Hs. lia.
Qed.

Lemma decode_single u r : is_high u = false -> decode (u :: r) = u :: decode r.
Proof.
  intros H. destruct r as [|v r']; [reflexivity|].
  cbn [decode]. now rewrite H.
Qed.

Lemma encode_cons cp r : encode (cp :: r) = encode_point cp ++ encode r.
Proof. reflexivity. Qed.

Lemma decode_encode cps : forallb scalar cps = true -> decode (encode cps) = cps.
Proof.
  induction cps as [|cp r IH]; [reflexivity|].
  intros H. simpl in H. apply andb_prop in H as [Hc Hr].
  rewrite encode_cons.
  destruct (encode_point_shape cp Hc) as [(E & Hh & _)|(h & l & E & Hh & Hl & Hv & _)];
    rewrite E; simpl app.
  - rewrite decode_single by exact Hh. now rewrite IH.
  - cbn [decode]. rewrite Hh, Hl. simpl andb. cbv iota. now rewrite Hv, IH.
Qed.

Lemma replace_spaces_encode cps :
  forallb scalar cps = true ->
  replace_spaces (encode cps) = encode (replace_spaces cps).
Proof.
  induction cps as [|cp r IH]; [reflexivity|].
  intros H. simpl in H. apply andb_prop in H as [Hc Hr]. specialize (IH Hr).
  rewrite encode_cons. cbn [replace_spaces].
  destruct (encode_point_shape cp Hc)
    as [(E & _)|(h & l & E & _ & _ & _ & Hs & Hsh & Hsl)]; rewrite E; simpl app;
    cbn [replace_spaces].
  - destruct (is_space cp); [exact IH|].
    now rewrite encode_cons, E, IH.
  - now rewrite Hs, Hsh, Hsl, encode_cons, E, IH.
Qed.

Lemma trimStart_encode cps :
  forallb scalar cps = true -> trimStart (encode cps) = encode (trimStart cps).
Proof.
  induction cps as [|cp r IH]; [reflexivity|].
  intros H. simpl in H. apply andb_prop in H as [Hc Hr]. specialize (IH Hr).
  rewrite encode_cons. cbn [trimStart].
  destruct (encode_point_shape cp Hc)
    as [(E & _)|(h & l & E & _ & _ & _ & Hs & Hsh & Hsl)]; rewrite E; simpl app;
    cbn [trimStart].
  - destruct (is_space cp); [exact IH|]. now rewrite encode_cons, E.
  - now rewrite Hs, Hsh, encode_cons, E.
Qed.

Lemma encode_cons_nonempty cp r : encode (cp :: r) <> [].
Proof.
  rewrite encode_cons. unfold encode_point. destruct (cp <? 65536); discriminate.
Qed.

Lemma trimEnd_encode cps :
  forallb scalar cps = true -> trimEnd (encode cps) = encode (trimEnd cps).
Proof.
  induction cps as [|cp r IH]; [reflexivity|].
  intros H. simpl in H. apply andb_prop in H as [Hc Hr].
  specialize (IH Hr).
  rewrite encode_cons. cbn [trimEnd].
  destruct (encode_point_shape cp Hc)
    as [(E & _)|(h & l & E & _ & _ & _ & Hs & Hsh & Hsl)]; rewrite E; simpl app;
    cbn [trimEnd]; rewrite IH.
  - destruct (trimEnd r) as [|a r'] eqn:Et.
    + cbn [encode flat_map]. destruct (is_space cp); [reflexivity|].
      now rewrite encode_cons, E.
    + destruct (encode (a :: r')) eqn:Ee; [now apply encode_cons_nonempty in Ee|].
      rewrite <- Ee. now rewrite (encode_cons cp), E.
  - rewrite Hsl, Hs.
    assert (X : match encode (trimEnd r) with
                | [] => [l]
                | n :: l0 => l :: n :: l0
                end = l :: encode (trimEnd r))
      by (now destruct (encode (trimEnd r))).
    rewrite X.
    assert (Y : encode match trimEnd r with
                       | [] => [cp]
                       | n :: l0 => cp :: n :: l0
                       end = h :: l :: encode (trimEnd r)).
    { destruct (trimEnd r); rewrite encode_cons, E; reflexivity. }
    now rewrite Y.
Qed.

Lemma trim_encode cps :
  forallb scalar cps = true -> trim (encode cps) = encode (trim cps).
Proof.
  intros H. unfold trim. rewrite trimStart_encode by exact H.
  apply trimEnd_encode.
  clear - H. induction cps as [|cp r IH]; [reflexivity|].
  simpl in *. apply andb_prop in H as [Hc Hr].
  destruct (is_space cp); [now apply IH | simpl; now rewrite Hc, Hr].
Qed.

Lemma scalar_trimStart cps : forallb scalar cps = true -> forallb scalar (trimStart cps) = true.
Proof.
  induction cps as [|cp r IH]; [reflexivity|]. simpl. intros H.
  apply andb_prop in H as [Hc Hr].
  destruct (is_space cp); [now apply IH | simpl; now rewrite Hc, Hr].
Qed.

Lemma scalar_trimEnd cps : forallb scalar cps = true -> forallb scalar (trimEnd cps) = true.
Proof.
  induction cps as [|cp r IH]; [reflexivity|]. simpl. intros H.
  apply andb_prop in H as [Hc Hr]. specialize (IH Hr).
  destruct (trimEnd r) as [|a r'].
  - destruct (is_space cp); simpl; [reflexivity | now rewrite Hc].
  - simpl in *. now rewrite Hc.
Qed.

Lemma scalar_trim cps : forallb scalar cps = true -> forallb scalar (trim cps) = true.
Proof. intros H. now apply scalar_trimEnd, scalar_trimStart. Qed.

Lemma scalar_replace_spaces cps :
  forallb scalar cps = true -> forallb scalar (replace_spaces cps) = true.
Proof.
  induction cps as [|cp r IH]; [reflexivity|]. simpl. intros H.
  apply andb_prop in H as [Hc Hr].
  destruct (is_space cp); [now apply IH | simpl; now rewrite Hc, IH].
Qed.

Lemma scalar_upper cps :
  forallb scalar cps = true -> forallb scalar (flat_map upper_point cps) = true.
Proof.
  induction cps as [|cp r IH]; [reflexivity|]. simpl. intros H.
  apply andb_prop in H as [Hc Hr].
  rewrite forallb_app, (IH Hr), andb_true_r.
  apply forallb_forall. intros c Hin. now apply (upper_point_image cp c Hc).
Qed.

(** The upper-case mapping and the removal of white space commute. *)
Lemma replace_spaces_upper cps :
  forallb scalar cps = true ->
  replace_spaces (flat_map upper_point cps) =
  flat_map upper_point (replace_spaces cps).
Proof.
  induction cps as [|cp r IH]; [reflexivity|]. simpl. intros H.
  apply andb_prop in H as [Hc Hr]. specialize (IH Hr).
  destruct (is_space cp) eqn:Hs.
  - rewrite (upper_point_space cp Hs). simpl. now rewrite Hs.
  - simpl. rewrite <- IH.
    assert (K : forall l, (forall c, In c l -> is_space c = false) ->
                forall t, replace_spaces (l ++ t) = l ++ replace_spaces t).
    { induction l as [|a l IHl]; intros Hl t; [reflexivity|].
      simpl. rewrite (Hl a (or_introl eq_refl)). f_equal.
      apply IHl. intros c Hc'. apply Hl. now right. }
    apply K. intros c Hin.
    now apply (upper_point_image cp c Hc Hin).
Qed.

Lemma spaceless_replace_spaces s : spaceless (replace_spaces s) = true.
Proof.
  induction s as [|u r IH]; [reflexivity|]. simpl.
  destruct (is_space u) eqn:E; [exact IH|]. simpl. now rewrite E, IH.
Qed.

Lemma replace_spaces_spaceless s : spaceless s = true -> replace_spaces s = s.
Proof.
  induction s as [|u r IH]; [reflexivity|]. simpl. intros H.
  apply andb_prop in H as [Hu Hr]. apply negb_true_iff in Hu.
  now rewrite Hu, IH.
Qed.

Lemma trim_spaceless s : spaceless s = true -> trim s = s.
Proof.
  intros H. unfold trim.
  assert (E : trimStart s = s).
  { destruct s as [|u r]; [reflexivity|]. simpl in *.
    apply andb_prop in H as [Hu _]. apply negb_true_iff in Hu. now rewrite Hu. }
  rewrite E. clear E.
  induction s as [|u r IH]; [reflexivity|]. simpl in *.
  apply andb_prop in H as [Hu Hr]. apply negb_true_iff in Hu.
  rewrite (IH Hr). destruct r; [now rewrite Hu | reflexivity].
Qed.

Lemma upper_fixed cps :
  (forall c, In c cps -> upper_point c = [c]) -> flat_map upper_point cps = cps.
Proof.
  induction cps as [|cp r IH]; [reflexivity|]. intros H. simpl.
  rewrite (H cp (or_introl eq_refl)). simpl. f_equal.
  apply IH. intros c Hc. apply H. now right.
Qed.

(** The key of a text, on its code points. *)
Lemma normalize_encode cps :
  forallb scalar cps = true ->
  normalize (encode cps) =
  encode (flat_map upper_point (replace_spaces (trim cps))).
Proof.
  intros H. unfold normalize, heard, toUpperCase.
  rewrite trim_encode by exact H.
  rewrite decode_encode by now apply scalar_trim.
  rewrite replace_spaces_encode by now apply scalar_upper, scalar_trim.
  rewrite replace_spaces_upper by now apply scalar_trim.
  reflexivity.
Qed.

Lemma In_replace_spaces c s : In c (replace_spaces s) -> In c s /\ is_space c = false.
Proof.
  induction s as [|u r IH]; simpl; [intros []|].
  destruct (is_space u) eqn:E.
  - intros H. destruct (IH H). split; [now right | assumption].
  - intros [<-|H]; [split; [now left | exact E]|].
    destruct (IH H). split; [now right | assumption].
Qed.

Lemma In_scalar c cps : forallb scalar cps = true -> In c cps -> scalar c = true.
Proof. intros H. rewrite forallb_forall in H. apply H. Qed.

Lemma normalize_idempotent_points cps :
  forallb scalar cps = true ->
  normalize (normalize (encode cps)) = normalize (encode cps).
Proof.
  intros H. rewrite (normalize_encode cps H).
  set (X := replace_spaces (trim cps)).
  assert (HX : forallb scalar X = true) by now apply scalar_replace_spaces, scalar_trim.
  set (M := flat_map upper_point X).
  assert (HM : forallb scalar M = true) by now apply scalar_upper.
  assert (Hfix : forall c, In c M -> upper_point c = [c] /\ is_space c = false).
  { intros c Hc. unfold M in Hc. apply in_flat_map in Hc as (x & Hx & Hc).
    pose proof (In_scalar x X HX Hx) as Sx.
    destruct (In_replace_spaces x _ Hx) as [_ Nx].
    destruct (upper_point_image x c Sx Hc) as (_ & Hs & Hf). split; auto. }
  assert (Hsp : spaceless M = true).
  { apply forallb_forall. intros c Hc. apply negb_true_iff. now apply Hfix. }
  rewrite (normalize_encode M HM).
  rewrite (trim_spaceless M Hsp), (replace_spaces_spaceless M Hsp).
  rewrite upper_fixed; [reflexivity|]. intros c Hc. now apply Hfix.
Qed.

(** A well-formed string is the code units of its code points, which are
    scalar values. *)
Lemma wellFormed_encode_decode s :
  wellFormed s = true -> encode (decode s) = s /\ forallb scalar (decode s) = true.
Proof.
  remember (length s) as n eqn:Hn. revert s Hn.
  induction n as [n IH] using lt_wf_ind. intros s Hn Hw.
  destruct s as [|u r]; [now split|].
  simpl in Hw. destruct (is_high u) eqn:Hh.
  - destruct r as [|v r']; [discriminate|].
    apply andb_prop in Hw as [Hl Hw].
    destruct (IH (length r')) with (s := r') as [E S]; [simpl in Hn; lia | reflexivity | exact Hw |].
    cbn [decode]. rewrite Hh, Hl. simpl andb. cbv iota.
    unfold is_high, is_low in Hh, Hl.
    apply andb_prop in Hh as [Hh1 Hh2]. apply andb_prop in Hl as [Hl1 Hl2].
    apply N.leb_le in Hh1, Hh2, Hl1, Hl2.
    set (cp := 65536 + (u - 55296) * 1024 + (v - 56320)).
    assert (Hcp : 65536 <= cp /\ cp < 1114112) by (unfold cp; lia).
    assert (Hq : (cp - 65536) / 1024 = u - 55296).
    { unfold cp. replace (65536 + (u - 55296) * 1024 + (v - 56320) - 65536)
        with ((v - 56320) + (u - 55296) * 1024) by lia.
      rewrite N.div_add by lia. rewrite N.div_small by lia. lia. }
    assert (Hr : (cp - 65536) mod 1024 = v - 56320).
    { unfold cp. replace (65536 + (u - 55296) * 1024 + (v - 56320) - 65536)
        with ((v - 56320) + (u - 55296) * 1024) by lia.
      rewrite N.Div0.mod_add. apply N.mod_small. lia. }
    split.
    + rewrite encode_cons, E. unfold encode_point.
      destruct (N.ltb_spec cp 65536) as [B|B]; [lia|]. rewrite Hq, Hr.
      cbn [app]. f_equal; [lia|]. f_equal. lia.
    + simpl. rewrite S, andb_true_r. unfold scalar.
      apply andb_true_intro. split; [apply N.ltb_lt; lia|].
      apply negb_true_iff, andb_false_iff. right. apply N.leb_gt. lia.
  - apply andb_prop in Hw as [Hw Hr]. apply andb_prop in Hw as [Hl Hb].
    apply negb_true_iff in Hl.
    destruct (IH (length r)) with (s := r) as [E S]; [simpl in Hn; lia | reflexivity | exact Hr |].
    rewrite decode_single by exact Hh.
    split.
    + rewrite encode_cons, E. unfold encode_point. now rewrite Hb.
    + simpl. rewrite S, andb_true_r. unfold scalar.
      apply N.ltb_lt in Hb.
      apply andb_true_intro. split; [apply N.ltb_lt; lia|].
      apply negb_true_iff. unfold is_high, is_low in Hh, Hl.
      assert (Hh' : u < 55296 \/ 56319 < u)
        by (apply andb_false_iff in Hh as [Hh|Hh]; apply N.leb_gt in Hh; lia).
      assert (Hl' : u < 56320 \/ 57343 < u)
        by (apply andb_false_iff in Hl as [Hl|Hl]; apply N.leb_gt in Hl; lia).
      apply andb_false_iff.
      destruct (N.lt_ge_cases u 55296) as [A|A];
        [left | right]; apply N.leb_gt; lia.
Qed.

(** C8, as the code has it: for every transcript that is well-formed UTF-16,
    that is, with code units below 65536 and no surrogate without its
    partner, normalising twice gives the same key as normalising once. *)
Theorem normalize_idempotent_on_text (T : list N) :
  wellFormed T = true -> normalize (normalize T) = normalize T.
Proof.
  intros H. destruct (wellFormed_encode_decode T H) as [E S].
  rewrite <- E. now apply normalize_idempotent_points.
Qed.


(** Upper-casing leaves the key of a text unchanged. *)
Lemma normalize_upper_fixed (T : list N) :
  wellFormed T = true -> toUpperCase (normalize T) = normalize T.
Proof.
  intros H. destruct (wellFormed_encode_decode T H) as [E S].
  rewrite <- E. rewrite (normalize_encode _ S).
  set (X := replace_spaces (trim (decode T))).
  assert (HX : forallb scalar X = true) by now apply scalar_replace_spaces, scalar_trim.
  unfold toUpperCase. rewrite decode_encode by now apply scalar_upper.
  f_equal. apply upper_fixed. intros c Hc.
  apply in_flat_map in Hc as (x & Hx & Hc).
  now apply (upper_point_image x c (In_scalar x X HX Hx) Hc).
Qed.

Lemma normalize_spaceless (T : list N) : spaceless (normalize T) = true.
Proof. apply spaceless_replace_spaces. Qed.

Lemma normalize_idempotent_on_text_witness :
  let T := [32; 115; 116; 114; 97; 223; 101; 160; 55297; 56360; 32; 49; 50; 12288] in
  wellFormed T = true /\
  normalize T = [83; 84; 82; 65; 83; 83; 69; 55297; 56320; 49; 50] /\
  normalize (normalize T) = normalize T.
Proof.
  split; [reflexivity|]. split; [vm_compute; reflexivity|].
  apply (normalize_idempotent_on_text
           [32; 115; 116; 114; 97; 223; 101; 160; 55297; 56360; 32; 49; 50; 12288]).
  reflexivity.
Defined.

(** C8, as the specification words it, fails: a transcript in which white
    space stands between a high and a low surrogate.  The first pass leaves
    the two surrogates as they are and removes the space, which makes them
    the pair of U+10428; the second pass upper-cases that letter to
    U+10400. *)
Lemma normalize_not_idempotent_on_split_pair :
  let T := [55297; 32; 56360] in
  wellFormed T = false /\
  normalize T = [55297; 56360] /\
  normalize (normalize T) = [55297; 56320] /\
  normalize (normalize T) <> normalize T.
Proof.
  split; [reflexivity|]. split; [vm_compute; reflexivity|].
  split; [vm_compute; reflexivity|].
  vm_compute. discriminate.
Qed.

Example normalize_sharp_s :
  normalize [115; 116; 114; 97; 223; 101] = ofAscii "STRASSE".
Proof. vm_compute. reflexivity. Qed.

Example normalize_no_break_space : normalize [97; 160; 98] = ofAscii "AB".
Proof. vm_compute. reflexivity. Qed.

End Js16Facts.

(** *** The ASCII functions are the full ones on ASCII strings *)

Module AsciiFacts.
Local Open Scope N_scope.

Lemma ascii_table_ok :
  forallb (fun n => ascii_ok (ascii_of_nat n)) (seq 0 128) = true.
Proof. vm_compute. reflexivity. Qed.

Lemma ascii_char_agrees c :
  (nat_of_ascii c <? 128)%nat = true ->
  Js16.is_space (N_of_ascii c) = Js.is_space c /\
  Js16.upper_point (N_of_ascii c) = [N_of_ascii (Js.upper_char c)] /\
  Js16.is_high (N_of_ascii c) = false /\
  Js16.is_low (N_of_ascii c) = false /\
  Js16.encode_point (N_of_ascii c) = [N_of_ascii c] /\
  (nat_of_ascii (Js.upper_char c) <? 128)%nat = true.
Proof.
  intros H. apply Nat.ltb_lt in H.
  pose proof ascii_table_ok as T. rewrite forallb_forall in T.
  specialize (T (nat_of_ascii c)). rewrite ascii_nat_embedding in T.
  assert (Hin : In (nat_of_ascii c) (seq 0 128)) by (apply in_seq; lia).
  specialize (T Hin). unfold ascii_ok in T.
  repeat (apply andb_prop in T as [T ?]).
  repeat match goal with
         | X : negb _ = true |- _ => apply negb_true_iff in X
         end.
  apply Bool.eqb_prop in T.
  split; [exact T|].
  split.
  { destruct (Js16.upper_point (N_of_ascii c)) as [|u [|? ?]]; try discriminate.
    match goal with X : (u =? _) = true |- _ => apply N.eqb_eq in X; now rewrite X end. }
  split; [assumption|]. split; [assumption|].
  split; [|assumption].
  unfold Js16.encode_point.
  match goal with X : (N_of_ascii c <? 65536) = true |- _ => now rewrite X end.
Qed.

Lemma ofAscii_cons c r : Js16.ofAscii (String c r) = N_of_ascii c :: Js16.ofAscii r.
Proof. reflexivity. Qed.

Lemma ascii_decode s : isAscii s = true -> Js16.decode (Js16.ofAscii s) = Js16.ofAscii s.
Proof.
  induction s as [|c r IH]; [reflexivity|]. simpl isAscii. intros H.
  apply andb_prop in H as [Hc Hr]. rewrite ofAscii_cons.
  destruct (ascii_char_agrees c Hc) as (_ & _ & Hh & _).
  rewrite Js16Facts.decode_single by exact Hh. now rewrite IH.
Qed.

Lemma ascii_toUpperCase s :
  isAscii s = true ->
  Js16.toUpperCase (Js16.ofAscii s) = Js16.ofAscii (Js.toUpperCase s) /\
  isAscii (Js.toUpperCase s) = true.
Proof.
  intros H. unfold Js16.toUpperCase. rewrite ascii_decode by exact H.
  induction s as [|c r IH]; [now split|]. simpl isAscii in H.
  apply andb_prop in H as [Hc Hr]. destruct (IH Hr) as [IH1 IH2].
  destruct (ascii_char_agrees c Hc) as (_ & Hu & _ & _ & _ & Ha).
  destruct (ascii_char_agrees (Js.upper_char c) Ha) as (_ & _ & _ & _ & He & _).
  rewrite ofAscii_cons. cbn [flat_map]. rewrite Hu. cbn [app].
  rewrite Js16Facts.encode_cons, He, IH1. cbn [app Js.toUpperCase isAscii].
  rewrite ofAscii_cons, Ha, IH2. now split.
Qed.

Lemma ascii_trimStart s :
  isAscii s = true ->
  Js16.trimStart (Js16.ofAscii s) = Js16.ofAscii (Js.trimStart s) /\ isAscii (Js.trimStart s) = true.
Proof.
  induction s as [|c r IH]; [now split|]. intros H. pose proof H as H0.
  simpl isAscii in H. apply andb_prop in H as [Hc Hr].
  destruct (ascii_char_agrees c Hc) as (Hs & _).
  rewrite ofAscii_cons. cbn [Js16.trimStart Js.trimStart]. rewrite Hs.
  destruct (Js.is_space c); [now apply IH | now split].
Qed.

Lemma ascii_trimEnd s :
  isAscii s = true ->
  Js16.trimEnd (Js16.ofAscii s) = Js16.ofAscii (Js.trimEnd s) /\ isAscii (Js.trimEnd s) = true.
Proof.
  induction s as [|c r IH]; [now split|]. intros H.
  simpl isAscii in H. apply andb_prop in H as [Hc Hr].
  destruct (IH Hr) as [IH1 IH2].
  destruct (ascii_char_agrees c Hc) as (Hs & _).
  rewrite ofAscii_cons. cbn [Js16.trimEnd Js.trimEnd]. rewrite IH1, Hs.
  destruct (Js.trimEnd r) as [|a r'].
  - cbn [Js16.ofAscii list_ascii_of_string map].
    destruct (Js.is_space c); [now split|]. split; [reflexivity|].
    simpl isAscii. now rewrite Hc.
  - rewrite ofAscii_cons. split; [reflexivity|].
    simpl isAscii in *. now rewrite Hc.
Qed.

Lemma ascii_replace_spaces s :
  isAscii s = true ->
  Js16.replace_spaces (Js16.ofAscii s) = Js16.ofAscii (Js.replace_spaces s) /\
  isAscii (Js.replace_spaces s) = true.
Proof.
  induction s as [|c r IH]; [now split|]. intros H.
  simpl isAscii in H. apply andb_prop in H as [Hc Hr].
  destruct (IH Hr) as [IH1 IH2].
  destruct (ascii_char_agrees c Hc) as (Hs & _).
  rewrite ofAscii_cons. cbn [Js16.replace_spaces Js.replace_spaces]. rewrite Hs.
  destruct (Js.is_space c); [now split|].
  rewrite ofAscii_cons, IH1. split; [reflexivity|].
  simpl isAscii. now rewrite Hc.
Qed.

(** On an ASCII transcript the functions of [Js] give the code units that
    the functions on all strings give. *)
Lemma ascii_normalize_agrees s :
  isAscii s = true ->
  Js16.heard (Js16.ofAscii s) = Js16.ofAscii (heard s) /\
  Js16.normalize (Js16.ofAscii s) = Js16.ofAscii (normalize s) /\
  isAscii (normalize s) = true.
Proof.
  intros H. unfold Js16.normalize, Js16.heard, normalize, heard,
    Js16.trim, Js.trim.
  destruct (ascii_trimStart s H) as [A1 A2].
  destruct (ascii_trimEnd _ A2) as [B1 B2].
  destruct (ascii_toUpperCase _ B2) as [C1 C2].
  destruct (ascii_replace_spaces _ C2) as [D1 D2].
  rewrite A1, B1, C1, D1. now repeat split.
Qed.

Lemma ascii_wellFormed s : isAscii s = true -> Js16.wellFormed (Js16.ofAscii s) = true.
Proof.
  induction s as [|c r IH]; [reflexivity|]. intros H.
  simpl isAscii in H. apply andb_prop in H as [Hc Hr].
  rewrite ofAscii_cons. cbn [Js16.wellFormed].
  destruct (ascii_char_agrees c Hc) as (_ & _ & Hh & Hl & He & _).
  rewrite Hh, Hl, (IH Hr).
  unfold Js16.encode_point in He.
  destruct (N_of_ascii c <? 65536) eqn:Hb; [reflexivity | discriminate].
Qed.

End AsciiFacts.

(** ** Recognition callbacks *)

Lemma deliver_installed k h w r :
  nth_error (sessions w) k = Some r -> deliver k h w = h r w.
Proof. intros H. unfold deliver. now rewrite H. Qed.

Lemma installed_lt k w :
  k < length (sessions w) -> exists r, nth_error (sessions w) k = Some r.
Proof.
  intros H. destruct (nth_error (sessions w) k) as [r|] eqn:E.
  - now exists r.
  - apply nth_error_None in E. lia.
Qed.

Lemma run_app env es1 es2 w :
  run env (es1 ++ es2) w = run env es2 (run env es1 w).
Proof. unfold run. apply fold_left_app. Qed.

Lemma searches_app l1 l2 : searches (l1 ++ l2) = searches l1 ++ searches l2.
Proof.
  induction l1 as [|e l1 IH]; simpl; [reflexivity|].
  destruct e; simpl; now rewrite ?IH.
Qed.

(** Without the recognition capability no recognition object is ever
    started, so the component never shows itself listening. *)
Lemma never_listening_without_capability env es :
  hasSpeechRecognition env = false ->
  sessions (run env es initialWorld) = [] /\
  isListening (store (run env es initialWorld)) = false.
Proof.
  intros Hcap.
  induction es as [|e es IH] using rev_ind; [now split|].
  rewrite run_app. simpl.
  destruct IH as [Hs Hl]. set (w := run env es initialWorld) in *.
  assert (Hfire : forall due v, sessions v = [] -> isListening (store v) = false ->
            sessions (fire due v) = [] /\ isListening (store (fire due v)) = false).
  { induction due as [|tm due IHd]; intros v Hv1 Hv2; simpl; [now split|].
    apply IHd; assumption. }
  destruct e as [text| | |k|k raw|k code|k|ms|k o]; simpl;
    unfold deliver; rewrite ?Hs.
  - now split.
  - destruct (Js.truthy (searchReg (store w))); now split.
  - unfold handleVoiceSearch. rewrite Hcap. now split.
  - destruct k; now split.
  - destruct k; now split.
  - destruct k; now split.
  - destruct k; now split.
  - unfold elapse. apply Hfire; assumption.
  - destruct (nth_error (inflight w) k); [|now split].
    destruct o as [m|ok data]; simpl; [now split|].
    destruct ok; simpl; [|now split].
    unfold speakResult. destruct (negb (hasSpeechSynthesis env)); now split.
Qed.

(** C4: when the recognition capability is absent, a call of the voice search
    only raises the notice that voice recognition is not supported: the
    component state, the pending searches, the suspended requests and the
    started recognitions are all as before, nothing is started, and from the
    initial state the component is idle before and after the call, whatever
    happened in between. *)
Theorem voice_search_unavailable (env : Env) (w : World) (es : list Event) :
  hasSpeechRecognition env = false ->
  step env ClickMic w =
    mkWorld (store w) (now w) (timers w) (inflight w) (sessions w)
            (log w ++ [Alert unsupportedNotice]) /\
  isListening (store (step env ClickMic w)) = isListening (store w) /\
  isListening (store (run env es initialWorld)) = false /\
  isListening (store (step env ClickMic (run env es initialWorld))) = false.
Proof.
  intros Hcap.
  assert (E : forall v, step env ClickMic v = emit (Alert unsupportedNotice) v).
  { intros v. simpl. unfold handleVoiceSearch. now rewrite Hcap. }
  destruct (never_listening_without_capability env es Hcap) as [_ Hl].
  rewrite !E. repeat split; assumption.
Qed.

Lemma voice_search_unavailable_witness :
  hasSpeechRecognition noVoice = false /\
  step noVoice ClickMic initialWorld =
    mkWorld initialStore 0 [] [] [] [Alert unsupportedNotice].
Proof.
  split; [reflexivity|].
  exact (proj1 (voice_search_unavailable noVoice initialWorld [] eq_refl)).
Defined.

(** C5, as the code has it: when the capability is available, a call of the
    voice search starts the recognition with language en-IN, continuous off
    and interim results off, and leaves the component state as it was; it is
    the start event of that recognition that makes the component listening
    and shows the listening notice. *)
Theorem voice_search_starts_recognition (env : Env) (w : World) :
  hasSpeechRecognition env = true ->
  let w' := step env ClickMic w in
  store w' = store w /\
  log w' = log w ++ [RecognitionStart "en-IN" false false] /\
  sessions w' = sessions w ++ [render w] /\
  timers w' = timers w /\ inflight w' = inflight w /\
  isListening (store (step env (OnStart (length (sessions w))) w')) = true /\
  actionMsg (store (step env (OnStart (length (sessions w))) w')) = listeningNotice.
Proof.
  intros Hcap. simpl. unfold handleVoiceSearch. rewrite Hcap. simpl.
  repeat split; unfold deliver; simpl;
    rewrite nth_error_app2, Nat.sub_diag by lia; reflexivity.
Qed.

Lemma voice_search_starts_recognition_witness :
  hasSpeechRecognition browser = true /\
  log (step browser ClickMic initialWorld) = [RecognitionStart "en-IN" false false].
Proof.
  split; [reflexivity|].
  exact (proj1 (proj2 (voice_search_starts_recognition browser initialWorld eq_refl))).
Defined.

(** C5, as the specification words it, fails: after the call itself the
    component is still idle and no notice is shown. *)
Lemma voice_search_call_keeps_idle :
  let w := step browser ClickMic initialWorld in
  hasSpeechRecognition browser = true /\
  isListening (store w) = false /\
  actionMsg (store w) <> listeningNotice.
Proof. repeat split. discriminate. Qed.

(** C6: after the end event of a started recognition the component is idle,
    whatever events came before it. *)
Theorem idle_after_end (env : Env) (es : list Event) (k : nat) (w : World) :
  k < length (sessions (run env es w)) ->
  isListening (store (run env (es ++ [OnEnd k]) w)) = false.
Proof.
  intros Hk. rewrite run_app. simpl.
  destruct (installed_lt _ _ Hk) as [r Hr].
  now rewrite (deliver_installed _ _ _ _ Hr).
Qed.

Lemma idle_after_end_witness :
  isListening (store (run browser [ClickMic; OnStart 0]  initialWorld)) = true /\
  isListening (store (run browser ([ClickMic; OnStart 0] ++ [OnEnd 0]) initialWorld)) = false.
Proof.
  split; [reflexivity|].
  apply (idle_after_end browser [ClickMic; OnStart 0] 0 initialWorld).
  simpl. lia.
Defined.

(** C7: the error event of a started recognition makes the component idle and
    shows the recognition-failure notice; it queues no search, sends no
    request, and leaves the displayed result, the displayed error and the
    search key as they were. *)
Theorem recognition_error_frame (env : Env) (w : World) (k : nat) (code : string) :
  k < length (sessions w) ->
  let w' := step env (OnError k code) w in
  isListening (store w') = false /\
  actionMsg (store w') = failureNotice /\
  timers w' = timers w /\
  inflight w' = inflight w /\
  searches (log w') = searches (log w) /\
  foundVehicle (store w') = foundVehicle (store w) /\
  error (store w') = error (store w) /\
  searchReg (store w') = searchReg (store w).
Proof.
  intros Hk. simpl.
  destruct (installed_lt _ _ Hk) as [r Hr].
  rewrite (deliver_installed _ _ _ _ Hr). simpl.
  repeat split. rewrite searches_app. simpl. apply app_nil_r.
Qed.

Lemma recognition_error_frame_witness :
  let w := run browser [ClickMic; OnStart 0] initialWorld in
  let w' := step browser (OnError 0 "no-speech") w in
  isListening (store w) = true /\
  isListening (store w') = false /\
  actionMsg (store w') = failureNotice /\
  timers w' = [].
Proof.
  split; [reflexivity|].
  pose proof (recognition_error_frame browser
                (run browser [ClickMic; OnStart 0] initialWorld) 0 "no-speech") as H.
  simpl in H. specialize (H (le_n 1)).
  destruct H as (H1 & H2 & H3 & _).
  split; [exact H1|]. split; [exact H2 | exact H3].
Defined.

(** ** Search execution *)

Lemma handleSearch_store r e w :
  store (handleSearch r e w) =
  mkStore (searchReg (store w)) (vehicles (store w)) None "" "" (isListening (store w)).
Proof. unfold handleSearch. destruct e; reflexivity. Qed.

Lemma handleSearch_cleared r e w : cleared (store (handleSearch r e w)) = true.
Proof. now rewrite handleSearch_store. Qed.

Lemma handleSearch_searches r e w :
  searches (log (handleSearch r e w)) =
  searches (log w) ++ [(carsUrl ++ searchReg (seen r))%string].
Proof.
  unfold handleSearch. destruct e; simpl; rewrite !searches_app; simpl;
    now rewrite ?app_nil_r.
Qed.

Lemma handleSearch_inflight r e w :
  inflight (handleSearch r e w) =
  inflight w ++ [(carsUrl ++ searchReg (seen r))%string].
Proof. unfold handleSearch. destruct e; reflexivity. Qed.

Lemma handleSearch_timers r e w : timers (handleSearch r e w) = timers w.
Proof. unfold handleSearch. destruct e; reflexivity. Qed.

Lemma errorText_truthy data : Js.truthy (errorText data) = true.
Proof.
  unfold errorText. destruct (detail data) as [d|]; [|reflexivity].
  destruct (Js.truthy d) eqn:E; [assumption | reflexivity].
Qed.

Lemma truthy_nonempty s : s <> "" -> Js.truthy s = true.
Proof. destruct s; [congruence | reflexivity]. Qed.

Lemma fire_cleared due w :
  cleared (store w) = true -> cleared (store (fire due w)) = true.
Proof.
  revert w. induction due as [|tm due IH]; intros w H; simpl; [assumption|].
  apply IH, handleSearch_cleared.
Qed.

Lemma fire_searches due w :
  searches (log (fire due w)) =
  searches (log w) ++ map (fun tm => (carsUrl ++ searchReg (seen (snd tm)))%string) due.
Proof.
  revert w. induction due as [|tm due IH]; intros w; simpl.
  - now rewrite app_nil_r.
  - fold (fire due (handleSearch (snd tm) false w)).
    now rewrite IH, handleSearch_searches, <- app_assoc.
Qed.

Lemma fire_timers due w : timers (fire due w) = timers w.
Proof.
  revert w. induction due as [|tm due IH]; intros w; simpl; [reflexivity|].
  fold (fire due (handleSearch (snd tm) false w)).
  now rewrite IH, handleSearch_timers.
Qed.

(** Between a search's start and the next completion nothing puts a result
    or an error on display. *)
Lemma cleared_step env e w :
  isCompletion e = false ->
  cleared (store w) = true -> cleared (store (step env e w)) = true.
Proof.
  intros He Hc.
  destruct e as [text| | |k|k raw|k code|k|ms|k o]; simpl in *;
    try discriminate; unfold deliver;
    try (destruct (nth_error (sessions w) k); [|assumption]).
  - exact Hc.
  - destruct (Js.truthy (searchReg (store w))); [|assumption].
    apply handleSearch_cleared.
  - unfold handleVoiceSearch. destruct (negb (hasSpeechRecognition env)); exact Hc.
  - exact Hc.
  - exact Hc.
  - exact Hc.
  - exact Hc.
  - unfold elapse. apply fire_cleared. exact Hc.
Qed.

Lemma cleared_run env es w :
  forallb (fun e => negb (isCompletion e)) es = true ->
  cleared (store w) = true -> cleared (store (run env es w)) = true.
Proof.
  revert w. induction es as [|e es IH]; intros w Hes Hc; simpl in *; [assumption|].
  apply andb_prop in Hes as [He Hes]. apply negb_true_iff in He.
  apply IH; [assumption|]. now apply cleared_step.
Qed.

Lemma cleared_fields s :
  cleared s = true -> foundVehicle s = None /\ error s = "".
Proof.
  unfold cleared, resultShown, errorShown.
  destruct (foundVehicle s); [discriminate|].
  destruct (error s); [now split | discriminate].
Qed.

(** C3, as the code has it: a search clears the displayed result and error
    when it starts; and when the first completion after that start arrives
    (no other search having completed in between) and a rejected request
    carries a message, exactly one of result and error is on display: the
    record with an empty error after a good reply, the error text with an
    empty result after a failure. *)
Theorem exactly_one_after_undisturbed_search
    (env : Env) (r : Render) (e : bool) (w : World)
    (es : list Event) (k : nat) (o : Outcome) :
  forallb (fun ev => negb (isCompletion ev)) es = true ->
  k < length (inflight (run env es (handleSearch r e w))) ->
  hasMessage o = true ->
  let started := handleSearch r e w in
  let done := step env (Respond k o) (run env es started) in
  cleared (store started) = true /\
  exactlyOne (store done) = true /\
  match o with
  | Rejected message =>
      foundVehicle (store done) = None /\ error (store done) = message
  | Replied false data =>
      foundVehicle (store done) = None /\ error (store done) = errorText data
  | Replied true data =>
      foundVehicle (store done) = Some data /\ error (store done) = ""
  end.
Proof.
  intros Hes Hk Hmsg. cbv zeta.
  split; [apply handleSearch_cleared|].
  pose proof (cleared_run env es _ Hes (handleSearch_cleared r e w)) as Hc.
  set (v := run env es (handleSearch r e w)) in *.
  apply cleared_fields in Hc as [Hf He].
  simpl. destruct (nth_error (inflight v) k) eqn:E;
    [|apply nth_error_None in E; lia].
  unfold exactlyOne, resultShown, errorShown.
  destruct o as [m|[|] data]; simpl in *.
  - rewrite Hf, Hmsg. now repeat split.
  - unfold speakResult.
    destruct (negb (hasSpeechSynthesis env)); simpl; rewrite He; now repeat split.
  - rewrite Hf, errorText_truthy. now repeat split.
Qed.

Lemma exactly_one_after_undisturbed_search_witness :
  let started := handleSearch (mkRender initialStore) true initialWorld in
  let done := step browser (Respond 0 (Replied true sampleVehicle))
                   (run browser [ClickMic; OnStart 0] started) in
  cleared (store started) = true /\ exactlyOne (store done) = true /\
  foundVehicle (store done) = Some sampleVehicle /\ error (store done) = "".
Proof.
  exact (exactly_one_after_undisturbed_search browser (mkRender initialStore) true
           initialWorld [ClickMic; OnStart 0] 0 (Replied true sampleVehicle)
           eq_refl (le_n 1) eq_refl).
Defined.

(** C3, as the specification words it, fails: two searches in flight at once,
    the first answered with a record and the second with a failure, leave
    both a result and an error on display after the second completes. *)
Lemma overlapping_searches_show_both :
  let w := run browser
             [TypeInput "MH12AB1234"; SubmitSearch; TypeInput "XX0000"; SubmitSearch;
              Respond 0 (Replied true sampleVehicle);
              Respond 0 (Replied false notFoundBody)] initialWorld in
  foundVehicle (store w) = Some sampleVehicle /\
  error (store w) = "Vehicle not found" /\
  exactlyOne (store w) = false.
Proof. repeat split. Qed.




(** ** Scheduled searches *)

Lemma onresult_fields r raw w :
  let w' := onresult r raw w in
  searchReg (store w') = normalize raw /\
  actionMsg (store w') = heardNotice (heard raw) /\
  isListening (store w') = false /\
  timers w' = timers w ++ [(now w + searchDelay, r)] /\
  now w' = now w /\ log w' = log w /\ inflight w' = inflight w /\
  sessions w' = sessions w.
Proof. cbv zeta. unfold onresult. simpl. now repeat split. Qed.


Lemma isDue_reached t d r : isDue (t + d) (t + d, r) = true.
Proof. unfold isDue. simpl. apply Nat.leb_refl. Qed.

Lemma step_OnResult env k raw w r :
  nth_error (sessions w) k = Some r ->
  step env (OnResult k raw) w = onresult r raw w.
Proof. intros H. simpl. unfold deliver. now rewrite H. Qed.

Lemma run_two env e1 e2 w : run env [e1; e2] w = step env e2 (step env e1 w).
Proof. reflexivity. Qed.


(** A result event followed by the delay, with nothing else pending: the
    live key is the normalised transcript, and the request that leaves asks
    for the key of the render that installed the callback. *)
Lemma scheduled_search env w k r raw :
  nth_error (sessions w) k = Some r ->
  timers w = [] ->
  let w' := run env [OnResult k raw; Elapse searchDelay] w in
  searchReg (store w') = normalize raw /\
  searches (log w') = searches (log w) ++ [(carsUrl ++ searchReg (seen r))%string] /\
  cleared (store w') = true /\
  timers w' = [].
Proof.
  intros Hr Ht. cbv zeta. rewrite run_two, (step_OnResult _ _ _ _ _ Hr).
  destruct (onresult_fields r raw w) as (Hs & _ & _ & Htm & Hn & Hl & _).
  remember (onresult r raw w) as v eqn:E. clear E.
  change (step env (Elapse searchDelay) v) with (elapse searchDelay v).
  unfold elapse. rewrite Htm, Ht, Hn. simpl app.
  unfold filter. rewrite (isDue_reached (now w) searchDelay r). simpl negb. cbv iota.
  split; [|split; [|split]].
  - unfold fire. simpl fold_left. rewrite handleSearch_store. simpl. exact Hs.
  - rewrite fire_searches. cbn [map snd log]. now rewrite Hl.
  - apply handleSearch_cleared.
  - now rewrite fire_timers.
Qed.

(** A whole voice search, from the click on: the request that leaves after
    the delay asks for the key the input held when the microphone was
    clicked, while the live key is the normalised transcript. *)
Lemma voice_search_requests_key_at_click env w raw :
  hasSpeechRecognition env = true ->
  timers w = [] ->
  let w' := run env [ClickMic; OnResult (length (sessions w)) raw;
                     Elapse searchDelay] w in
  searchReg (store w') = normalize raw /\
  searches (log w') = searches (log w) ++ [(carsUrl ++ searchReg (store w))%string].
Proof.
  intros Hcap Ht. cbv zeta.
  change (run env [ClickMic; OnResult (length (sessions w)) raw; Elapse searchDelay] w)
    with (run env [OnResult (length (sessions w)) raw; Elapse searchDelay]
              (step env ClickMic w)).
  assert (Ec : step env ClickMic w = startRecognition (render w) "en-IN" false false w).
  { simpl. unfold handleVoiceSearch. now rewrite Hcap. }
  rewrite Ec.
  set (v := startRecognition (render w) "en-IN" false false w).
  assert (Hr : nth_error (sessions v) (length (sessions w)) = Some (render w)).
  { unfold v. simpl. now rewrite nth_error_app2, Nat.sub_diag by lia. }
  assert (Hv : timers v = []) by exact Ht.
  destruct (scheduled_search env v _ _ raw Hr Hv) as (H1 & H2 & _).
  split; [exact H1|]. rewrite H2. unfold v. simpl.
  rewrite searches_app. simpl. now rewrite app_nil_r.
Qed.

(** No event cancels a pending search: a queued callback stays queued until
    the time it is due has passed, and then it runs. *)
Lemma pending_search_stays env e w tm :
  In tm (timers w) ->
  In tm (timers (step env e w)) \/
  exists ms, e = Elapse ms /\ isDue (now w + ms) tm = true.
Proof.
  intros Hin.
  destruct e as [text| | |k|k raw|k code|k|ms|k o]; simpl; unfold deliver.
  - now left.
  - destruct (Js.truthy (searchReg (store w))); left;
      [now rewrite handleSearch_timers | assumption].
  - left. unfold handleVoiceSearch.
    now destruct (negb (hasSpeechRecognition env)).
  - left. now destruct (nth_error (sessions w) k).
  - left. destruct (nth_error (sessions w) k); [|assumption].
    simpl. apply in_or_app. now left.
  - left. now destruct (nth_error (sessions w) k).
  - left. now destruct (nth_error (sessions w) k).
  - destruct (isDue (now w + ms) tm) eqn:E; [right; now exists ms|].
    left. unfold elapse. rewrite fire_timers. simpl.
    apply filter_In. split; [assumption | now rewrite E].
  - left. destruct (nth_error (inflight w) k); [|assumption].
    destruct o as [m|[|] data]; simpl; try assumption.
    unfold speakResult. now destruct (negb (hasSpeechSynthesis env)).
Qed.



(** C2, evaluated on the code: from the fresh dashboard, the microphone is
    clicked and the recognition reports "MH 12 AB 1234".  The live key becomes
    "MH12AB1234", but the search that fires after the delay runs the
    [handleSearch] of the render in which the click happened, whose key is
    still the empty one: the request asks for no key, not for "MH12AB1234". *)
Theorem scheduled_search_uses_stale_key :
  let w := run browser
             [ClickMic; OnStart 0; OnResult 0 "MH 12 AB 1234"; OnEnd 0;
              Elapse searchDelay] initialWorld in
  searchReg (store w) = "MH12AB1234" /\
  searches (log w) = ["http://127.0.0.1:8000/cars/"] /\
  searches (log w) <> ["http://127.0.0.1:8000/cars/MH12AB1234"].
Proof. split; [reflexivity|]. split; [reflexivity | discriminate]. Qed.




(** * Further properties of the dashboard *)

Lemma ascending_app l x :
  ascending l -> Forall (fun y => y <= x) l -> ascending (l ++ [x]).
Proof.
  induction l as [|a l IH]; simpl; intros Ha Hb.
  - split; [constructor | exact I].
  - destruct Ha as [Ha1 Ha2]. inversion Hb as [|? ? Hax Hl]; subst.
    split; [|now apply IH].
    apply Forall_app. split; [assumption | now repeat constructor].
Qed.

Lemma ascending_filter (f : Timer -> bool) l :
  ascending (map fst l) -> ascending (map fst (filter f l)).
Proof.
  induction l as [|a l IH]; simpl; [trivial|].
  intros [Ha Hl]. destruct (f a); simpl; [|now apply IH].
  split; [|now apply IH].
  rewrite Forall_forall in *. intros y Hy.
  apply in_map_iff in Hy as (tm & <- & Hin). apply filter_In in Hin as [Hin _].
  apply Ha, in_map, Hin.
Qed.

Lemma timersInOrder_same w v :
  timers v = timers w -> now v = now w -> timersInOrder w -> timersInOrder v.
Proof.
  unfold timersInOrder, pendingWithinDelay. intros -> ->. trivial.
Qed.

Lemma fire_now due w : now (fire due w) = now w.
Proof.
  revert w. induction due as [|tm due IH]; intros w; simpl; [reflexivity|].
  fold (fire due (handleSearch (snd tm) false w)). rewrite IH.
  unfold handleSearch. reflexivity.
Qed.

Lemma timersInOrder_step env e w : timersInOrder w -> timersInOrder (step env e w).
Proof.
  intros H.
  destruct e as [text| | |k|k raw|k code|k|ms|k o]; simpl; unfold deliver.
  - exact H.
  - destruct (Js.truthy (searchReg (store w))); [|exact H].
    apply (timersInOrder_same w); [apply handleSearch_timers | reflexivity | exact H].
  - unfold handleVoiceSearch. now destruct (negb (hasSpeechRecognition env)).
  - now destruct (nth_error (sessions w) k).
  - destruct (nth_error (sessions w) k) as [r|]; [|exact H].
    destruct H as [Ho Hb]. unfold timersInOrder, onresult. simpl. split.
    + rewrite map_app. simpl. apply ascending_app; [exact Ho|].
      rewrite Forall_forall in *. intros y Hy.
      apply in_map_iff in Hy as (tm & <- & Hin). now apply Hb.
    + apply Forall_app. split; [exact Hb|].
      constructor; [|constructor]. unfold pendingWithinDelay, searchDelay. simpl. lia.
  - now destruct (nth_error (sessions w) k).
  - now destruct (nth_error (sessions w) k).
  - destruct H as [Ho Hb]. unfold timersInOrder, elapse.
    rewrite fire_timers. simpl. split; [now apply ascending_filter|].
    rewrite Forall_forall in *. intros tm Hin.
    apply filter_In in Hin as [Hin Hnd]. apply negb_true_iff in Hnd.
    unfold isDue in Hnd. apply Nat.leb_gt in Hnd.
    unfold pendingWithinDelay. rewrite fire_now. simpl.
    pose proof (Hb tm Hin) as Hle. unfold pendingWithinDelay in Hle. lia.
  - destruct (nth_error (inflight w) k); [|exact H].
    destruct o as [m|[|] data]; simpl; try exact H.
    unfold speakResult. now destruct (negb (hasSpeechSynthesis env)).
Qed.

(** X1: in every state the dashboard reaches, the searches queued by result
    events wait in the order in which they fall due, and none of them is
    queued for later than 800 ms ahead: every result event asks for the same
    delay, so a later event never overtakes an earlier one. *)
Theorem pending_searches_in_order (env : Env) (es : list Event) :
  let w := run env es initialWorld in
  ascending (map fst (timers w)) /\
  Forall (fun tm => fst tm <= now w + 800) (timers w).
Proof.
  cbv zeta.
  assert (H : timersInOrder (run env es initialWorld)).
  { induction es as [|e es IH] using rev_ind.
    - split; [exact I | constructor].
    - rewrite run_app. simpl. now apply timersInOrder_step. }
  exact H.
Qed.

Lemma fire_isListening due w :
  isListening (store (fire due w)) = isListening (store w).
Proof.
  revert w. induction due as [|tm due IH]; intros w; simpl; [reflexivity|].
  fold (fire due (handleSearch (snd tm) false w)).
  now rewrite IH, handleSearch_store.
Qed.

Lemma step_keeps_listening env e w :
  isRecognitionEvent e = false ->
  isListening (store (step env e w)) = isListening (store w).
Proof.
  intros He.
  destruct e as [text| | |k|k raw|k code|k|ms|k o]; simpl in *;
    try discriminate.
  - reflexivity.
  - destruct (Js.truthy (searchReg (store w))); [|reflexivity].
    now rewrite handleSearch_store.
  - unfold handleVoiceSearch. now destruct (negb (hasSpeechRecognition env)).
  - unfold elapse. now rewrite fire_isListening.
  - destruct (nth_error (inflight w) k); [|reflexivity].
    destruct o as [m|[|] data]; simpl; try reflexivity.
    unfold speakResult. now destruct (negb (hasSpeechSynthesis env)).
Qed.

(** X2: only the events of a recognition object change the listening state:
    typing, submitting a search, clicking the microphone, timers firing and
    gateway replies, in any number and order, leave it as it was. *)
Theorem listening_changes_only_on_recognition_events
    (env : Env) (es : list Event) (w : World) :
  forallb (fun e => negb (isRecognitionEvent e)) es = true ->
  isListening (store (run env es w)) = isListening (store w).
Proof.
  revert w. induction es as [|e es IH]; intros w Hes; simpl in *; [reflexivity|].
  apply andb_prop in Hes as [He Hes]. apply negb_true_iff in He.
  fold (run env es (step env e w)). rewrite (IH _ Hes).
  now apply step_keeps_listening.
Qed.

Lemma listening_changes_only_on_recognition_events_witness :
  let w := run browser [ClickMic; OnStart 0] initialWorld in
  isListening (store w) = true /\
  isListening
    (store (run browser [TypeInput "MH12AB1234"; SubmitSearch; ClickMic;
                         Elapse 1000; Respond 0 (Replied true sampleVehicle)] w)) = true.
Proof.
  split; [reflexivity|].
  rewrite (listening_changes_only_on_recognition_events browser
             [TypeInput "MH12AB1234"; SubmitSearch; ClickMic; Elapse 1000;
              Respond 0 (Replied true sampleVehicle)]
             (run browser [ClickMic; OnStart 0] initialWorld) eq_refl).
  reflexivity.
Defined.

(** X3: on an ASCII transcript the key a result event stores is the key
    JavaScript computes: its code units are what trim, toUpperCase and the
    removal of white space give on the transcript as a JavaScript string;
    it contains no white space, upper-casing leaves it unchanged, and the
    acknowledgement shows the trimmed, upper-cased transcript. *)
Theorem result_event_stores_canonical_key
    (env : Env) (w : World) (k : nat) (raw : string) :
  k < length (sessions w) ->
  isAscii raw = true ->
  let w' := step env (OnResult k raw) w in
  let key := Js16.ofAscii (searchReg (store w')) in
  key = Js16.normalize (Js16.ofAscii raw) /\
  Js16.spaceless key = true /\
  Js16.toUpperCase key = key /\
  actionMsg (store w') = heardNotice (heard raw) /\
  Js16.ofAscii (heard raw) = Js16.heard (Js16.ofAscii raw).
Proof.
  intros Hk Ha. cbv zeta.
  destruct (installed_lt _ _ Hk) as [r Hr].
  rewrite (step_OnResult _ _ _ _ _ Hr).
  destruct (onresult_fields r raw w) as (Hs & Hm & _).
  destruct (AsciiFacts.ascii_normalize_agrees raw Ha) as (Hh & Hn & _).
  rewrite Hs, Hm, <- Hn.
  split; [reflexivity|].
  split; [apply Js16Facts.normalize_spaceless|].
  split; [apply Js16Facts.normalize_upper_fixed, AsciiFacts.ascii_wellFormed, Ha|].
  split; [reflexivity | now rewrite Hh].
Qed.

Lemma result_event_stores_canonical_key_witness :
  let w := step browser ClickMic initialWorld in
  let w' := step browser (OnResult 0 "  ka 01  cd 5678 ") w in
  searchReg (store w') = "KA01CD5678" /\
  Js16.ofAscii (searchReg (store w')) =
    Js16.normalize (Js16.ofAscii "  ka 01  cd 5678 ") /\
  actionMsg (store w') = heardNotice "KA 01  CD 5678".
Proof.
  pose proof (result_event_stores_canonical_key browser
                (step browser ClickMic initialWorld) 0 "  ka 01  cd 5678 "
                (le_n 1) eq_refl) as H.
  cbv zeta in H. destruct H as (H1 & _ & _ & H4 & _).
  split; [reflexivity|]. split; [exact H1 | exact H4].
Defined.

(** X4: a manual search asks for the text as it was typed: typing a
    non-empty text and submitting sends one request for exactly that text,
    with no trimming, upper-casing or removal of spaces, and clears the
    displayed result and error. *)
Theorem manual_search_sends_typed_text (env : Env) (w : World) (text : string) :
  text <> "" ->
  let w' := run env [TypeInput text; SubmitSearch] w in
  searches (log w') = searches (log w) ++ [(carsUrl ++ text)%string] /\
  inflight w' = inflight w ++ [(carsUrl ++ text)%string] /\
  searchReg (store w') = text /\
  cleared (store w') = true.
Proof.
  intros Ht. cbv zeta. rewrite run_two.
  assert (E : step env SubmitSearch (step env (TypeInput text) w) =
              handleSearch (render (setSearchReg text w)) true (setSearchReg text w)).
  { simpl. now rewrite (truthy_nonempty text Ht). }
  rewrite E, handleSearch_searches, handleSearch_inflight, handleSearch_store.
  now repeat split.
Qed.

Lemma manual_search_sends_typed_text_witness :
  let w' := run browser [TypeInput " mh 12 ab 1234"; SubmitSearch] initialWorld in
  searches (log w') = ["http://127.0.0.1:8000/cars/ mh 12 ab 1234"] /\
  searchReg (store w') = " mh 12 ab 1234".
Proof.
  assert (Hne : " mh 12 ab 1234" <> "") by discriminate.
  destruct (manual_search_sends_typed_text browser initialWorld " mh 12 ab 1234" Hne)
    as (H1 & _ & H3 & _).
  split; [exact H1 | exact H3].
Defined.

(** X5: the spoken announcement is optional: a successful reply stores the
    record and leaves the error and the status message alone; it is announced
    in en-IN when speech synthesis exists, and without it nothing is called
    and no error appears. *)
Theorem announcement_is_optional (env : Env) (w : World) (k : nat) (data : Json) :
  k < length (inflight w) ->
  let w' := step env (Respond k (Replied true data)) w in
  foundVehicle (store w') = Some data /\
  error (store w') = error (store w) /\
  actionMsg (store w') = actionMsg (store w) /\
  log w' = log w ++ (if hasSpeechSynthesis env
                     then [Speak (announcement data) "en-IN"] else []).
Proof.
  intros Hk. simpl.
  destruct (nth_error (inflight w) k) eqn:E;
    [|apply nth_error_None in E; lia].
  unfold speakResult. destruct (hasSpeechSynthesis env); simpl.
  - now repeat split.
  - rewrite app_nil_r. now repeat split.
Qed.

Lemma announcement_is_optional_witness :
  let w := run browser [TypeInput "MH12AB1234"; SubmitSearch] initialWorld in
  log (step browser (Respond 0 (Replied true sampleVehicle)) w) =
    log w ++ [Speak "Vehicle Tata Nexon, Registration MH12AB1234, Price ₹900000" "en-IN"] /\
  log (step noVoice (Respond 0 (Replied true sampleVehicle)) w) = log w ++ [].
Proof.
  split.
  - exact (proj2 (proj2 (proj2 (announcement_is_optional browser
             (run browser [TypeInput "MH12AB1234"; SubmitSearch] initialWorld)
             0 sampleVehicle (le_n 1))))).
  - exact (proj2 (proj2 (proj2 (announcement_is_optional noVoice
             (run browser [TypeInput "MH12AB1234"; SubmitSearch] initialWorld)
             0 sampleVehicle (le_n 1))))).
Defined.

(** * The add-vehicle form *)

Lemma remove_nth_last {A} (l : list A) x : remove_nth (length l) (l ++ [x]) = l.
Proof. induction l as [|a l IH]; simpl; [reflexivity | now rewrite IH]. Qed.

Lemma In_remove_nth {A} k (l : list A) x : In x (remove_nth k l) -> In x l.
Proof.
  revert k. induction l as [|a l IH]; intros k; destruct k; simpl; trivial.
  - intros H. now right.
  - intros [H|H]; [now left | right; now apply (IH k)].
Qed.

Module AddVehicleFacts.
Import AddVehicle.

Lemma get_assign_same name value f : get name (assign name value f) = Some value.
Proof.
  induction f as [|[k v] r IH]; simpl.
  - now rewrite String.eqb_refl.
  - destruct (String.eqb k name) eqn:E; simpl; now rewrite E.
Qed.

Lemma get_assign_other name value other f :
  other <> name -> get other (assign name value f) = get other f.
Proof.
  intros Hne. induction f as [|[k v] r IH]; simpl.
  - destruct (String.eqb name other) eqn:E; [|reflexivity].
    apply String.eqb_eq in E. congruence.
  - destruct (String.eqb k name) eqn:E; simpl.
    + apply String.eqb_eq in E. subst k.
      destruct (String.eqb name other) eqn:E'; [|reflexivity].
      apply String.eqb_eq in E'. congruence.
    + now rewrite IH.
Qed.

Lemma keys_assign_member name value f :
  existsb (String.eqb name) (keys f) = true -> keys (assign name value f) = keys f.
Proof.
  induction f as [|[k v] r IH]; simpl; [discriminate|].
  intros H. destruct (String.eqb k name) eqn:E; simpl; [reflexivity|].
  rewrite String.eqb_sym, E in H. simpl in H. now rewrite IH.
Qed.

Lemma posted_app l1 l2 : posted (l1 ++ l2) = posted l1 ++ posted l2.
Proof.
  induction l1 as [|e l1 IH]; simpl; [reflexivity|].
  destruct e; simpl; now rewrite ?IH.
Qed.

Lemma form_visited_app l1 l2 : visited (l1 ++ l2) = visited l1 ++ visited l2.
Proof.
  induction l1 as [|e l1 IH]; simpl; [reflexivity|].
  destruct e; simpl; now rewrite ?IH.
Qed.

Lemma posted_navigations (due : list nat) :
  posted (map (fun _ => Navigate "/dashboard") due) = [].
Proof. induction due; simpl; auto. Qed.

Lemma form_run_app token es1 es2 w :
  run token (es1 ++ es2) w = run token es2 (run token es1 w).
Proof. unfold run. apply fold_left_app. Qed.

(** X6: a change event of the form sets the member it names to the new value
    and leaves every other member, the selected files and the message as
    they were; nothing is sent. *)
Theorem change_sets_one_member
    (token : string) (w : World) (name value other : string) :
  other <> name ->
  let w' := step token (Change name value) w in
  get name (form (state w')) = Some value /\
  get other (form (state w')) = get other (form (state w)) /\
  images (state w') = images (state w) /\
  message (state w') = message (state w) /\
  log w' = log w /\ inflight w' = inflight w.
Proof.
  intros Hne. simpl.
  split; [apply get_assign_same|].
  split; [now apply get_assign_other|]. now repeat split.
Qed.

Lemma change_sets_one_member_witness :
  let w' := step "t0k3n" (Change "brand" "Tata") initialWorld in
  get "brand" (form (state w')) = Some "Tata" /\
  get "model" (form (state w')) = Some "".
Proof.
  assert (Hne : "model" <> "brand") by discriminate.
  destruct (change_sets_one_member "t0k3n" initialWorld "brand" "Tata" "model" Hne)
    as (H1 & H2 & _).
  split; [exact H1 | exact H2].
Defined.

Lemma wellFormed_step token e w :
  fromAnInput initialForm e = true ->
  wellFormed token w -> wellFormed token (step token e w).
Proof.
  intros He (Hk & Hi & Hp).
  destruct e as [name value|files| |k o|ms]; simpl in *.
  - split; [|now split]. simpl.
    rewrite keys_assign_member; [assumption|]. now rewrite Hk.
  - now split.
  - destruct (complete (form (state w))) eqn:Ec; [|now split].
    assert (Hs : shaped token (mkRequest carsEndpoint ("Bearer " ++ token)
                                         (formData (state w)))).
    { unfold shaped. split; [reflexivity|]. split; [reflexivity|].
      exists (form (state w)), (images (state w)). now repeat split. }
    split; [exact Hk|]. split; simpl.
    + intros r Hr. apply in_app_or in Hr as [Hr|[<-|[]]]; [now apply Hi | exact Hs].
    + intros r Hr. rewrite !posted_app in Hr. simpl in Hr.
      rewrite app_nil_r in Hr.
      apply in_app_or in Hr as [Hr|[<-|[]]]; [now apply Hp | exact Hs].
  - destruct (nth_error (inflight w) k) as [sent|]; [|now split].
    assert (Hi' : forall q, In q (remove_nth k (inflight w)) -> shaped token q)
      by (intros q Hq; apply Hi; now apply In_remove_nth in Hq).
    destruct o as [m|[|] data]; simpl; now split.
  - split; [exact Hk|]. split; [exact Hi|]. simpl.
    intros r Hr. rewrite posted_app, posted_navigations, app_nil_r in Hr.
    now apply Hp.
Qed.

Lemma wellFormed_run token es :
  forallb (fromAnInput initialForm) es = true ->
  wellFormed token (run token es initialWorld).
Proof.
  induction es as [|e es IH] using rev_ind; intros Hes.
  - split; [reflexivity|]. split; intros r [].
  - rewrite forallb_app in Hes. apply andb_prop in Hes as [Hes He].
    simpl in He. rewrite andb_true_r in He.
    rewrite form_run_app. simpl. apply wellFormed_step; [assumption | now apply IH].
Qed.

(** X7: whatever is typed into the inputs, in any order and with files
    chosen, submits made and replies received in between, the form keeps its
    ten members in the order of their declaration. *)
Theorem form_keeps_its_members (token : string) (es : list Event) :
  forallb (fromAnInput initialForm) es = true ->
  keys (form (state (run token es initialWorld))) =
  ["reg"; "brand"; "model"; "year"; "price"; "kms"; "fuel"; "transmission";
   "owner"; "description"].
Proof. intros Hes. exact (proj1 (wellFormed_run token es Hes)). Qed.

Lemma form_keeps_its_members_witness :
  form (state (run "t0k3n" (fillEvents ++ [Change "brand" "Mahindra"; Files ["a.png"]])
                   initialWorld)) =
    assign "brand" "Mahindra" filledForm /\
  keys (assign "brand" "Mahindra" filledForm) = keys initialForm.
Proof.
  split; [reflexivity|].
  exact (form_keeps_its_members "t0k3n"
           (fillEvents ++ [Change "brand" "Mahindra"; Files ["a.png"]]) eq_refl).
Defined.

(** X8: every request the form ever posts goes to the cars endpoint with the
    bearer token and carries the ten members in the order of their
    declaration, none of them empty, followed by one [images] entry per
    selected file: an incomplete form is never sent. *)
Theorem posted_vehicle_is_complete (token : string) (es : list Event) (r : Request) :
  forallb (fromAnInput initialForm) es = true ->
  In r (posted (log (run token es initialWorld))) ->
  url r = "http://127.0.0.1:8000/cars" /\
  authorization r = ("Bearer " ++ token)%string /\
  exists f files,
    body r = f ++ map (fun file => ("images", file)) files /\
    keys f = keys initialForm /\
    forallb (fun kv => Js.truthy (snd kv)) f = true.
Proof.
  intros Hes Hr.
  destruct (wellFormed_run token es Hes) as (_ & _ & Hp).
  exact (Hp r Hr).
Qed.

Lemma posted_vehicle_is_complete_witness :
  let es := fillEvents ++ [Files ["front.png"; "rear.png"]; Submit] in
  posted (log (run "t0k3n" es initialWorld)) =
    [mkRequest carsEndpoint "Bearer t0k3n"
       (filledForm ++ [("images", "front.png"); ("images", "rear.png")])] /\
  posted (log (run "t0k3n" [Change "reg" "MH12AB1234"; Submit] initialWorld)) = [] /\
  url (mkRequest carsEndpoint "Bearer t0k3n"
         (filledForm ++ [("images", "front.png"); ("images", "rear.png")])) =
    "http://127.0.0.1:8000/cars".
Proof.
  split; [reflexivity|]. split; [reflexivity|].
  refine (proj1 (posted_vehicle_is_complete "t0k3n"
                   (fillEvents ++ [Files ["front.png"; "rear.png"]; Submit])
                   _ eq_refl _)).
  simpl. now left.
Defined.




(** X10: after a good reply the form returns to the dashboard once the
    1500 ms have passed and not before: with nothing else queued, no
    navigation has happened [d] ms after the reply for [d] below 1500, and
    exactly one, to the dashboard, when the rest of the delay has passed. *)
Theorem added_vehicle_returns_to_dashboard
    (token : string) (w : World) (k d : nat) (data : Json) :
  k < length (inflight w) ->
  timers w = [] ->
  d < 1500 ->
  let early := run token [Reply k (Replied true data); Elapse d] w in
  let late := step token (Elapse (1500 - d)) early in
  visited (log early) = visited (log w) /\
  visited (log late) = visited (log w) ++ ["/dashboard"] /\
  timers late = [].
Proof.
  intros Hk Ht Hd. cbv zeta.
  change (run token [Reply k (Replied true data); Elapse d] w)
    with (step token (Elapse d) (step token (Reply k (Replied true data)) w)).
  assert (E : step token (Reply k (Replied true data)) w =
              mkWorld (mkState (form (state w)) (images (state w)) addedNotice)
                      (now w) [now w + redirectDelay] (remove_nth k (inflight w)) (log w)).
  { simpl. destruct (nth_error (inflight w) k) eqn:E;
      [|apply nth_error_None in E; lia].
    unfold setTimeout, setMessage, withState, settle. simpl. now rewrite Ht. }
  rewrite E. clear E.
  assert (E1 : (now w + 1500 <=? now w + d) = false) by (apply Nat.leb_gt; lia).
  assert (E2 : (now w + 1500 <=? now w + d + (1500 - d)) = true)
    by (apply Nat.leb_le; lia).
  unfold step, elapse, redirectDelay. cbn [timers now log filter].
  rewrite E1. cbn [negb filter map timers now log]. rewrite E2. cbn [negb map].
  rewrite !form_visited_app. cbn [visited]. rewrite app_nil_r.
  now repeat split.
Qed.

Lemma added_vehicle_returns_to_dashboard_witness :
  let w := run "t0k3n" (fillEvents ++ [Submit]) initialWorld in
  let early := run "t0k3n" [Reply 0 (Replied true sampleVehicle); Elapse 1000] w in
  visited (log w) = [] /\
  visited (log early) = visited (log w) /\
  visited (log (step "t0k3n" (Elapse (1500 - 1000)) early)) =
    visited (log w) ++ ["/dashboard"].
Proof.
  pose (w := run "t0k3n" (fillEvents ++ [Submit]) initialWorld).
  assert (Hk : 0 < length (inflight w)) by (simpl; lia).
  assert (Hd : 1000 < 1500) by lia.
  destruct (added_vehicle_returns_to_dashboard "t0k3n" w 0 1000 sampleVehicle
              Hk eq_refl Hd) as (H1 & H2 & _).
  split; [vm_compute; reflexivity|].
  split; [exact H1 | exact H2].
Defined.

End AddVehicleFacts.

(** * The vehicle page *)

Module DetailsFacts.
Import Details.

Lemma details_run_app env reg token es1 es2 w :
  run env reg token (es1 ++ es2) w = run env reg token es2 (run env reg token es1 w).
Proof. unfold run. apply fold_left_app. Qed.


Lemma stranded_step env reg token e w :
  stranded w ->
  stranded (step env reg token e w) /\
  state (step env reg token e w) = state w /\
  log (step env reg token e w) = log w.
Proof.
  intros (Hv & Hi & Ht). unfold stranded.
  destruct e as [| answer | i | | k o | ms]; simpl; rewrite ?Hv; try now repeat split.
  - rewrite Hi. destruct k; now repeat split.
  - unfold elapse. rewrite Ht. simpl. rewrite app_nil_r. now repeat split.
Qed.

Lemma stranded_run env reg token es w :
  stranded w ->
  state (run env reg token es w) = state w /\ log (run env reg token es w) = log w.
Proof.
  revert w. induction es as [|e es IH]; intros w H; simpl; [now split|].
  destruct (stranded_step env reg token e w H) as (H1 & H2 & H3).
  fold (run env reg token es (step env reg token e w)).
  destruct (IH _ H1) as [H4 H5]. split; congruence.
Qed.

(** X11: when the load of the vehicle fails, by a rejected request or by a
    reply that is not ok, the error text is stored but never shown: as long
    as the page stays on that registration it keeps showing the loading
    line, whatever is clicked and however long one waits, and it goes
    nowhere else. *)
Theorem failed_load_stays_loading
    (env : Env) (reg token : string) (o : Reply) (es : list Event) :
  failed o = true ->
  let w := run env reg token (Answer 0 o :: es) (mounted reg) in
  view (state w) = LoadingPage /\
  Js.truthy (msg (state w)) = true /\
  msg (state w) =
    ("❌ " ++ match o with
             | Rejected message => message
             | Replied _ data => orElse (detail data) "Vehicle not found"
             end)%string /\
  visited (log w) = [].
Proof.
  intros Hf. cbv zeta.
  change (run env reg token (Answer 0 o :: es) (mounted reg))
    with (run env reg token es (step env reg token (Answer 0 o) (mounted reg))).
  set (v := step env reg token (Answer 0 o) (mounted reg)).
  assert (Hs : stranded v).
  { unfold v. destruct o as [m|[|] data]; try discriminate; now repeat split. }
  destruct (stranded_run env reg token es v Hs) as [H1 H2].
  rewrite H1, H2. unfold v.
  destruct o as [m|[|] data]; try discriminate; now repeat split.
Qed.

Lemma failed_load_stays_loading_witness :
  let w := run browser "XX0000" "t0k3n"
             [Answer 0 (Replied false refusal); ClickSold; ClickDelete true;
              Elapse 5000] (mounted "XX0000") in
  view (state w) = LoadingPage /\ msg (state w) = "❌ Not authorized".
Proof.
  destruct (failed_load_stays_loading browser "XX0000" "t0k3n" (Replied false refusal)
              [ClickSold; ClickDelete true; Elapse 5000] eq_refl) as (H1 & _ & H3 & _).
  split; [exact H1 | exact H3].
Defined.

(** X12: marking a shown, unsold vehicle as sold sends one PATCH for its
    registration with the bearer token; when the reply is ok the vehicle is
    the one the click saw with [is_sold] set, the card shows it as sold with
    every other line and the gallery as before, the button to mark it is
    gone, and a further click on it does nothing. *)
Theorem marked_vehicle_is_sold
    (env : Env) (reg token : string) (w : World) (v : Body) (data : Body) :
  vehicle (state w) = Some v ->
  is_sold v = false ->
  let w1 := step env reg token ClickSold w in
  let w2 := step env reg token (Answer (length (inflight w)) (Replied true data)) w1 in
  log w1 = log w ++ [Patch ("http://127.0.0.1:8000/cars/" ++ reg ++ "/sold")
                           ("Bearer " ++ token)] /\
  vehicle (state w2) = Some (sold v) /\
  msg (state w2) = "✅ Marked as sold successfully!" /\
  (forall c c', view (state w) = DetailsPage c -> view (state w2) = DetailsPage c' ->
     title c' = title c /\ registration c' = registration c /\
     fuelLine c' = fuelLine c /\ transmissionLine c' = transmissionLine c /\
     ownerLine c' = ownerLine c /\ descriptionLine c' = descriptionLine c /\
     gallery c' = gallery c /\ lightbox c' = lightbox c /\
     status c' = "✅ SOLD" /\ soldButton c' = false) /\
  step env reg token ClickSold w2 = w2.
Proof.
  intros Hv Hs. cbv zeta.
  assert (E1 : step env reg token ClickSold w = markAsSold reg token v w)
    by (simpl; now rewrite Hv, Hs).
  rewrite E1. unfold markAsSold, await.
  assert (E2 : step env reg token (Answer (length (inflight w)) (Replied true data))
                 (mkWorld (state w) (now w) (timers w) (inflight w ++ [Marking v])
                    (log w ++ [Patch (server ++ "/cars/" ++ reg ++ "/sold")
                                     ("Bearer " ++ token)])) =
               mkWorld (mkState (Some (sold v)) "✅ Marked as sold successfully!"
                                (photoIndex (state w)) (isOpen (state w)))
                       (now w) (timers w) (inflight w)
                       (log w ++ [Patch (server ++ "/cars/" ++ reg ++ "/sold")
                                        ("Bearer " ++ token)])).
  { simpl. rewrite nth_error_app2, Nat.sub_diag by lia. simpl.
    unfold settle. simpl. now rewrite remove_nth_last. }
  rewrite E2. clear E1 E2.
  split; [reflexivity|]. split; [reflexivity|]. split; [reflexivity|].
  split; [|reflexivity].
  unfold view. simpl. rewrite Hv.
  intros c c' Hc Hc'. inversion Hc. inversion Hc'. simpl. now repeat split.
Qed.

Lemma marked_vehicle_is_sold_witness :
  let w := step browser "MH12AB1234" "t0k3n" (Answer 0 (Replied true nexon))
                (mounted "MH12AB1234") in
  let w1 := step browser "MH12AB1234" "t0k3n" ClickSold w in
  let w2 := step browser "MH12AB1234" "t0k3n"
                 (Answer (length (inflight w)) (Replied true emptyBody)) w1 in
  vehicle (state w) = Some nexon /\
  vehicle (state w2) = Some (sold nexon) /\
  step browser "MH12AB1234" "t0k3n" ClickSold w2 = w2.
Proof.
  pose (w := step browser "MH12AB1234" "t0k3n" (Answer 0 (Replied true nexon))
                  (mounted "MH12AB1234")).
  destruct (marked_vehicle_is_sold browser "MH12AB1234" "t0k3n" w nexon emptyBody
              eq_refl eq_refl) as (_ & H2 & _ & _ & H5).
  split; [reflexivity|]. split; [exact H2 | exact H5].
Defined.





Lemma consistent_step env reg token e w :
  consistent w -> consistent (step env reg token e w).
Proof.
  unfold consistent. intros H.
  destruct e as [| answer | i | | k o | ms]; simpl.
  - destruct (vehicle (state w)) as [v|] eqn:Hv; [|now rewrite Hv].
    destruct (is_sold v); [now rewrite Hv|]. simpl. rewrite Hv.
    destruct H as [H1 H2]. split; [exact H1|].
    intros p Hp. apply in_app_or in Hp as [Hp|[<-|[]]]; [now apply H2 | reflexivity].
  - destruct (vehicle (state w)) as [v|] eqn:Hv; [|now rewrite Hv].
    unfold deleteVehicle. destruct answer; simpl; rewrite Hv; [|exact H].
    destruct H as [H1 H2]. split; [exact H1|].
    intros p Hp. apply in_app_or in Hp as [Hp|[<-|[]]]; [now apply H2 | exact I].
  - destruct (vehicle (state w)) as [v|] eqn:Hv; [|now rewrite Hv].
    destruct (i <? length (imageUrls v)) eqn:Hi; [|now rewrite Hv].
    simpl. rewrite Hv. destruct H as [_ H2]. split; [|exact H2].
    intros _. now apply Nat.ltb_lt.
  - destruct (vehicle (state w)) as [v|] eqn:Hv; [|now rewrite Hv].
    destruct H as [_ H2].
    destruct (isOpen (state w)) eqn:Ho; simpl; rewrite Hv;
      (split; [intros Hx; simpl in Hx; congruence | exact H2]).
  - destruct (nth_error (inflight w) k) as [p|] eqn:Hp; [|exact H].
    assert (Hin : In p (inflight w)) by (eapply nth_error_In; eassumption).
    assert (Hsub : forall q, In q (remove_nth k (inflight w)) -> In q (inflight w))
      by (intros q; apply In_remove_nth).
    destruct (vehicle (state w)) as [v|] eqn:Hv.
    + destruct H as [H1 H2]. pose proof (H2 p Hin) as Hpp.
      destruct p as [|seen|]; [contradiction| |]; simpl.
      * destruct o as [m|[|] data]; simpl; rewrite ?Hv.
        -- split; [exact H1 | intros q Hq; apply H2, Hsub, Hq].
        -- unfold imageUrls in *. simpl. rewrite Hpp. split; [exact H1|].
           intros q Hq. specialize (H2 q (Hsub q Hq)).
           destruct q; [contradiction | congruence | exact I].
        -- split; [exact H1 | intros q Hq; apply H2, Hsub, Hq].
      * destruct o as [m|[|] data]; simpl; rewrite ?Hv;
          (split; [exact H1 | intros q Hq; apply H2, Hsub, Hq]).
    + destruct H as [H1 [H2|H2]]; rewrite H2 in *; [destruct Hin|].
      destruct Hin as [<-|[]]. destruct k as [|[|k]]; try discriminate.
      simpl. destruct o as [m|[|] data]; simpl; rewrite ?Hv, ?H2.
      * split; [exact H1 | now left].
      * assert (Hshown : forall u : World,
                  vehicle (state u) = Some data -> isOpen (state u) = false ->
                  inflight u = [] ->
                  match vehicle (state u) with
                  | None => isOpen (state u) = false /\
                            (inflight u = [] \/ inflight u = [Loading])
                  | Some v =>
                      (isOpen (state u) = true ->
                       photoIndex (state u) < length (imageUrls v)) /\
                      (forall p, In p (inflight u) ->
                         match p with
                         | Loading => False
                         | Marking seen => images seen = images v
                         | Deleting => True
                         end)
                  end).
        { intros u Hu1 Hu2 Hu3. rewrite Hu1, Hu2, Hu3.
          split; [intros Hx; discriminate Hx | intros q []]. }
        unfold speakDetails.
        destruct (negb (hasSpeechSynthesis env)); apply Hshown; simpl;
          rewrite ?H2; auto.
      * split; [exact H1 | now left].
  - exact H.
Qed.

(** X15: the image viewer never points outside the gallery: in every state
    the page reaches after it is mounted for one registration, an open
    viewer is open on the index of one of the images shown. *)
Theorem viewer_stays_in_gallery
    (env : Env) (reg token : string) (es : list Event) (c : Card) (i : nat) :
  view (state (run env reg token es (mounted reg))) = DetailsPage c ->
  lightbox c = Some i ->
  i < length (gallery c).
Proof.
  assert (H : consistent (run env reg token es (mounted reg))).
  { induction es as [|e es IH] using rev_ind.
    - unfold consistent. simpl. split; [reflexivity | now right].
    - rewrite details_run_app. simpl. now apply consistent_step. }
  unfold consistent, view in *.
  destruct (vehicle (state (run env reg token es (mounted reg)))) as [v|];
    [|discriminate].
  intros Hc Hl. inversion Hc; subst c; simpl in *.
  destruct (isOpen (state (run env reg token es (mounted reg)))); [|discriminate].
  inversion Hl; subst i. now apply (proj1 H).
Qed.

Lemma viewer_stays_in_gallery_witness :
  let w := run browser "MH12AB1234" "t0k3n"
             [Answer 0 (Replied true nexon); ClickImage 5; ClickImage 1; ClickSold]
             (mounted "MH12AB1234") in
  exists c, view (state w) = DetailsPage c /\ lightbox c = Some 1 /\
            1 < length (gallery c).
Proof.
  eexists. split; [reflexivity|]. split; [reflexivity|].
  eapply (viewer_stays_in_gallery browser "MH12AB1234" "t0k3n"
            [Answer 0 (Replied true nexon); ClickImage 5; ClickImage 1; ClickSold]);
    reflexivity.
Defined.

End DetailsFacts.

(** * The application shell, login and logout *)

Module SiteFacts.
Import Site.

Lemma site_run_app es1 es2 w : run (es1 ++ es2) w = run es2 (run es1 w).
Proof. unfold run. apply fold_left_app. Qed.

Lemma settle_tokens w : token (settle w) = token w /\ stored (settle w) = stored w.
Proof. unfold settle. destruct (route (token w) (location w)); now split. Qed.

Lemma navigate_tokens l w :
  token (navigate l w) = token w /\ stored (navigate l w) = stored w.
Proof.
  unfold navigate.
  destruct (location w), l; try (now split);
    match goal with |- context [settle ?v] =>
      destruct (settle_tokens v) as [-> ->] end; now split.
Qed.

Lemma withLogin_tokens origin f w :
  token (withLogin origin f w) = token w /\ stored (withLogin origin f w) = stored w.
Proof.
  unfold withLogin. destruct (onLoginPage w && (origin =? mounts w)); now split.
Qed.

Lemma tokenless_step e w :
  accepts e = false -> tokenless w -> tokenless (step e w).
Proof.
  unfold tokenless. intros He [Ht Hs].
  assert (Hw : forall origin f v,
             token v = None /\ stored v = None ->
             token (withLogin origin f v) = None /\
             stored (withLogin origin f v) = None).
  { intros origin f v Hv. now destruct (withLogin_tokens origin f v) as [-> ->]. }
  destruct e as [text|text| |k o| |l|l]; cbn [step].
  - apply Hw. now split.
  - apply Hw. now split.
  - destruct (onLoginPage w && Js.truthy (username (login w))
              && Js.truthy (password (login w))); [|now split].
    unfold handleSubmit. cbn [token stored].
    apply Hw. now split.
  - destruct (nth_error (inflight w) k) as [origin|]; [|now split].
    destruct o as [m|[|] data]; cbn [accepts] in He; try discriminate;
      cbn [handleSubmit_resume negb]; apply Hw; now split.
  - destruct (page w); try now split.
    unfold handleLogout.
    destruct (navigate_tokens AtRoot (removeItem w)) as [-> ->]. now split.
  - destruct (navigate_tokens l w) as [-> ->]. now split.
  - unfold load.
    match goal with |- context [settle ?v] =>
      destruct (settle_tokens v) as [-> ->] end. now split.
Qed.

Lemma tokenless_page w : tokenless w -> guarded (page w) = false.
Proof.
  intros [Ht _]. unfold page. rewrite Ht. now destruct (location w).
Qed.

(** X16: nobody gets in without the login endpoint saying ok: from a first
    visit at any address, as long as no login reply was ok, there is no
    token in the application or in the storage and the page on screen is
    none of the dashboard, the add form and the vehicle page, whatever was
    typed, submitted, answered or visited. *)
Theorem no_access_without_accepted_login (l : Location) (es : list Event) :
  forallb (fun e => negb (accepts e)) es = true ->
  let w := run es (firstVisit l) in
  token w = None /\ stored w = None /\ guarded (page w) = false.
Proof.
  intros Hes. cbv zeta.
  assert (H : tokenless (run es (firstVisit l))).
  { induction es as [|e es IH] using rev_ind.
    - unfold firstVisit, load, tokenless. simpl.
      match goal with |- context [settle ?v] =>
        destruct (settle_tokens v) as [-> ->] end. now split.
    - rewrite forallb_app in Hes. apply andb_prop in Hes as [Hes He].
      simpl in He. rewrite andb_true_r in He. apply negb_true_iff in He.
      rewrite site_run_app. simpl. apply tokenless_step; [assumption | now apply IH]. }
  destruct H as [Ht Hs]. split; [exact Ht|]. split; [exact Hs|].
  now apply tokenless_page.
Qed.

Lemma no_access_without_accepted_login_witness :
  let w := run [TypeUsername "admin"; TypePassword "guess"; SubmitLogin;
                Reply 0 (Replied false (mkLoginBody (Some "Incorrect password") None));
                Go AtDashboard; Load (AtVehicle "MH12AB1234"); Go AtAddVehicle]
               (firstVisit AtDashboard) in
  token w = None /\ stored w = None /\ guarded (page w) = false.
Proof.
  exact (no_access_without_accepted_login AtDashboard
           [TypeUsername "admin"; TypePassword "guess"; SubmitLogin;
            Reply 0 (Replied false (mkLoginBody (Some "Incorrect password") None));
            Go AtDashboard; Load (AtVehicle "MH12AB1234"); Go AtAddVehicle] eq_refl).
Defined.

Lemma load_with_token l w :
  truthy (stored w) = true -> page (step (Load l) w) = route (stored w) l.
Proof.
  intros H.
  assert (E : load l w =
              mkWorld (stored w) (stored w) l freshLogin (S (mounts w)) [] (log w)).
  { unfold load, settle. simpl. destruct l; simpl; rewrite ?H; reflexivity. }
  cbn [step]. rewrite E. reflexivity.
Qed.

Lemma load_without_token l w :
  truthy (stored w) = false -> l <> Elsewhere -> page (step (Load l) w) = LoginPage.
Proof.
  intros H Hl.
  assert (E : load l w =
              mkWorld (stored w) (stored w) AtRoot freshLogin
                      (match l with AtRoot => S (mounts w) | _ => S (S (mounts w)) end)
                      [] (log w)).
  { unfold load, settle. simpl. destruct l; simpl; rewrite ?H; try reflexivity.
    congruence. }
  cbn [step]. rewrite E. reflexivity.
Qed.

Lemma go_with_token l w :
  truthy (token w) = true -> page (step (Go l) w) = route (token w) l.
Proof.
  intros H. cbn [step]. unfold navigate.
  assert (E : settle (remount l w) = remount l w).
  { unfold settle. cbn [remount token location].
    destruct l; cbn [route]; rewrite ?H; reflexivity. }
  destruct (location w) eqn:Hl; destruct l; rewrite ?E; try reflexivity.
  unfold page. now rewrite Hl.
Qed.

Lemma submit_then_reply w o :
  location w = AtRoot ->
  Js.truthy (username (login w)) = true ->
  Js.truthy (password (login w)) = true ->
  run [SubmitLogin; Reply (length (inflight w)) o] w =
  handleSubmit_resume (mounts w) o
    (mkWorld (token w) (stored w) AtRoot
             (mkLoginState (username (login w)) (password (login w)) "")
             (mounts w) (inflight w)
             (log w ++ [PreventDefault;
                        PostLogin loginUrl formEncoded
                                  [("username", username (login w));
                                   ("password", password (login w))]])).
Proof.
  intros Hl Hu Hp. unfold run. simpl.
  unfold onLoginPage. rewrite Hl, Hu, Hp. simpl.
  unfold handleSubmit, setError, withLogin, onLoginPage. simpl.
  rewrite Hl, Nat.eqb_refl. simpl.
  rewrite nth_error_app2, Nat.sub_diag by lia. simpl.
  now rewrite remove_nth_last.
Qed.

(** X17: a login that the endpoint accepts with a non-empty access token
    posts the typed user name and password, keeps the token in the
    application and in the storage, and shows the dashboard; opening the
    application again at a guarded address still shows that page. *)
Theorem accepted_login_opens_dashboard (w : World) (d : option string) (t : string) :
  location w = AtRoot ->
  Js.truthy (username (login w)) = true ->
  Js.truthy (password (login w)) = true ->
  t <> "" ->
  let w' := run [SubmitLogin;
                 Reply (length (inflight w)) (Replied true (mkLoginBody d (Some t)))] w in
  log w' = log w ++ [PreventDefault;
                     PostLogin "http://127.0.0.1:8000/auth/login"
                               "application/x-www-form-urlencoded"
                               [("username", username (login w));
                                ("password", password (login w))]] /\
  token w' = Some t /\
  stored w' = Some t /\
  page w' = DashboardPage /\
  page (step (Load AtDashboard) w') = DashboardPage /\
  page (step (Load AtAddVehicle) w') = AddVehiclePage.
Proof.
  intros Hl Hu Hp Ht. cbv zeta.
  rewrite (submit_then_reply w _ Hl Hu Hp).
  pose proof (truthy_nonempty t Ht) as Htt.
  match goal with |- context [handleSubmit_resume ?a ?o ?v] =>
    assert (E : handleSubmit_resume a o v =
                mkWorld (Some t) (Some t) AtDashboard freshLogin (S (mounts w))
                        (inflight w) (log v))
  end.
  { unfold handleSubmit_resume, navigate, settle, route. simpl. now rewrite Htt. }
  rewrite E. clear E.
  split; [reflexivity|]. split; [reflexivity|]. split; [reflexivity|].
  split; [unfold page; simpl; now rewrite Htt|].
  split; rewrite load_with_token by exact Htt; cbn [stored route truthy];
    now rewrite Htt.
Qed.

Lemma accepted_login_opens_dashboard_witness :
  let w := run [TypeUsername "admin"; TypePassword "s3cret"] (firstVisit AtDashboard) in
  let w' := run [SubmitLogin;
                 Reply (length (inflight w))
                       (Replied true (mkLoginBody None (Some "t0k3n")))] w in
  page w = LoginPage /\ token w' = Some "t0k3n" /\ stored w' = Some "t0k3n" /\
  page w' = DashboardPage.
Proof.
  assert (Hne : "t0k3n" <> "") by discriminate.
  destruct (accepted_login_opens_dashboard
              (run [TypeUsername "admin"; TypePassword "s3cret"] (firstVisit AtDashboard))
              None "t0k3n" eq_refl eq_refl eq_refl Hne) as (_ & H2 & H3 & H4 & _).
  split; [reflexivity|]. split; [exact H2|]. split; [exact H3 | exact H4].
Defined.

(** X18: logging out removes the stored token and shows the login page, but
    leaves the token held by the application as it is: moving back to a
    guarded address inside the running application shows that page again,
    and only a fresh load of the application sends it to the login page. *)
Theorem logout_keeps_session_token (w : World) :
  page w = DashboardPage ->
  let w' := step Logout w in
  stored w' = None /\
  page w' = LoginPage /\
  token w' = token w /\
  page (step (Go AtDashboard) w') = DashboardPage /\
  page (step (Go AtAddVehicle) w') = AddVehiclePage /\
  page (step (Load AtDashboard) w') = LoginPage.
Proof.
  intros Hp. cbv zeta.
  assert (E0 : step Logout w = handleLogout w) by (cbn [step]; now rewrite Hp).
  rewrite E0. clear E0.
  unfold page, route in Hp.
  destruct (location w) eqn:Hl; try discriminate;
    destruct (truthy (token w)) eqn:Ht; try discriminate.
  assert (E : handleLogout w =
              mkWorld (token w) None AtRoot freshLogin (S (mounts w)) (inflight w) (log w)).
  { unfold handleLogout, navigate, removeItem. simpl. rewrite Hl. reflexivity. }
  rewrite E. clear E.
  split; [reflexivity|]. split; [reflexivity|]. split; [reflexivity|].
  split; [|split].
  - rewrite go_with_token by exact Ht. cbn [token route]. now rewrite Ht.
  - rewrite go_with_token by exact Ht. cbn [token route]. now rewrite Ht.
  - now rewrite load_without_token.
Qed.

Lemma logout_keeps_session_token_witness :
  let w := run [TypeUsername "admin"; TypePassword "s3cret"; SubmitLogin;
                Reply 0 (Replied true (mkLoginBody None (Some "t0k3n")))]
               (firstVisit AtRoot) in
  page w = DashboardPage /\
  stored (step Logout w) = None /\
  page (step (Go AtDashboard) (step Logout w)) = DashboardPage /\
  page (step (Load AtDashboard) (step Logout w)) = LoginPage.
Proof.
  destruct (logout_keeps_session_token
              (run [TypeUsername "admin"; TypePassword "s3cret"; SubmitLogin;
                    Reply 0 (Replied true (mkLoginBody None (Some "t0k3n")))]
                   (firstVisit AtRoot)) eq_refl) as (H1 & _ & _ & H4 & _ & H6).
  split; [reflexivity|]. split; [exact H1|]. split; [exact H4 | exact H6].
Defined.



(** X20: an ok login reply that carries no access token stores the text
    "undefined" and gives the application no token: the dashboard it moves
    to sends it straight back to a fresh login page with no error shown.
    Opening the application again then finds the stored text and shows the
    guarded pages. *)
Theorem accepted_login_without_token (w : World) (d : option string) :
  location w = AtRoot ->
  Js.truthy (username (login w)) = true ->
  Js.truthy (password (login w)) = true ->
  let w' := run [SubmitLogin;
                 Reply (length (inflight w)) (Replied true (mkLoginBody d None))] w in
  stored w' = Some "undefined" /\
  token w' = None /\
  page w' = LoginPage /\
  login w' = freshLogin /\
  page (step (Load AtDashboard) w') = DashboardPage.
Proof.
  intros Hl Hu Hp. cbv zeta.
  rewrite (submit_then_reply w _ Hl Hu Hp).
  match goal with |- context [handleSubmit_resume ?a ?o ?v] =>
    assert (E : handleSubmit_resume a o v =
                mkWorld None (Some "undefined") AtRoot freshLogin (S (S (mounts w)))
                        (inflight w) (log v))
  end.
  { reflexivity. }
  rewrite E. clear E.
  split; [reflexivity|]. split; [reflexivity|]. split; [reflexivity|].
  split; [reflexivity|].
  now rewrite load_with_token.
Qed.

Lemma accepted_login_without_token_witness :
  let w := run [TypeUsername "admin"; TypePassword "s3cret"] (firstVisit AtRoot) in
  let w' := run [SubmitLogin;
                 Reply (length (inflight w)) (Replied true (mkLoginBody None None))] w in
  stored w' = Some "undefined" /\ page w' = LoginPage /\
  page (step (Load AtDashboard) w') = DashboardPage.
Proof.
  destruct (accepted_login_without_token
              (run [TypeUsername "admin"; TypePassword "s3cret"] (firstVisit AtRoot))
              None eq_refl eq_refl eq_refl) as (H1 & _ & H3 & _ & H5).
  split; [exact H1|]. split; [exact H3 | exact H5].
Defined.

End SiteFacts.
